(** * Deepstack object detection for Home Assistant: the detection pipeline

    A shallow embedding of
    [custom_components/deepstack_object/image_processing.py]:
    the geometry helpers, the classifier, the normaliser [get_objects],
    the file-name slug [get_valid_filename], and the two stateful methods of
    [ObjectClassifyEntity], [process_image] and [save_image].

    Python values are modelled as follows.
    - [float] is the kernel's binary64 type; [+ - * /] and the comparisons
      are the IEEE operations Python uses, and [round(x, n)] is CPython's
      correctly rounded algorithm (see [py_round]).
    - labels, object types and entity ids are [string]s: the code only tests
      them for equality and for emptiness.
    - the text handled by [get_valid_filename] is a list of Unicode code
      points ([pystr]), because [strip] and the class [\w] look at single
      characters.
    - exceptions are values of [exn]; functions that can raise return a
      [result]; the methods of the entity live in the monad [M], which
      threads [self] and records what the method does to the outside (log
      lines, drawing, files, events). *)

From Stdlib Require Import ZArith NArith List String Ascii Bool Lia.
From Stdlib Require Import Floats.
Import ListNotations.

Set Warnings "-inexact-float".

(* ================================================================== *)
(** ** Python floats *)

Module PyFloat.

Open Scope Z_scope.

(** The integer nearest to [num / den] ([den > 0]), ties to the even one. *)
Definition round_half_even (num den : Z) : Z :=
  let q := num / den in
  let r := num mod den in
  match 2 * r ?= den with
  | Lt => q
  | Gt => q + 1
  | Eq => if Z.even q then q else q + 1
  end.

(** The double nearest to the decimal [(-1)^s * n / d] (what [strtod]
    returns for it): one correctly rounded division of exact operands. *)
Definition strtod_ratio (s : bool) (n d : positive) : float :=
  SF2Prim (SFdiv prec emax (S754_finite s n 0) (S754_finite false d 0)).

(** [round(x, ndigits)] for a float [x] and [0 <= ndigits]. CPython
    ([float.__round__], [double_round]) prints the exact binary value of [x]
    with [ndigits] decimals, rounding half to even, and reads the decimal
    back; infinities and NaN round to themselves. *)
Definition py_round (x : float) (ndigits : N) : float :=
  match Prim2SF x with
  | S754_finite s m e =>
      let scale := 10 ^ Z.of_N ndigits in
      let num := Zpos m * scale * (if 0 <=? e then 2 ^ e else 1) in
      let den := if 0 <=? e then 1 else 2 ^ (- e) in
      match round_half_even num den with
      | Zpos n => strtod_ratio s n (Z.to_pos scale)
      | _ => if s then (-0)%float else 0%float
      end
  | _ => x
  end.

(** [float(n)] for an [int] [n], rounded to nearest (exact below 2^53; the
    sizes of an image are far below the range where Python raises
    [OverflowError]). *)
Definition float_of_int (n : Z) : float :=
  SF2Prim (binary_normalize prec emax n 0 false).

(** [a <= b] and [a < b] as propositions. *)
Definition le (a b : float) : Prop := (a <=? b)%float = true.
Definition lt (a b : float) : Prop := (a <? b)%float = true.

End PyFloat.

(* ================================================================== *)
(** ** Exceptions and results *)

Inductive exn : Type :=
| UnidentifiedImageError                 (* PIL: the bytes are no image *)
| DeepstackException (msg : string)      (* deepstack.core *)
| ZeroDivisionError
| NameError (name : string)
| OtherException (msg : string).         (* anything else a collaborator raises *)

Inductive result (A : Type) : Type :=
| Ok (a : A)
| Raise (e : exn).
Arguments Ok {A} a.
Arguments Raise {A} e.

Definition rbind {A B} (r : result A) (k : A -> result B) : result B :=
  match r with
  | Ok a => k a
  | Raise e => Raise e
  end.

Declare Scope result_scope.
Delimit Scope result_scope with res.
Notation "x <- c ;; k" := (rbind c (fun x => k))
  (at level 61, c at next level, right associativity) : result_scope.

(** [x / n] with a float [x] and an int [n]. *)
Definition py_truediv (x : float) (n : Z) : result float :=
  if (n =? 0)%Z then Raise ZeroDivisionError
  else Ok (x / PyFloat.float_of_int n)%float.

(* ================================================================== *)
(** ** Module constants *)

Open Scope string_scope.
Open Scope list_scope.

Definition ANIMAL := "animal".
Definition ANIMALS : list string :=
  ["bird"; "cat"; "dog"; "horse"; "sheep"; "cow"; "elephant"; "bear";
   "zebra"; "giraffe"].
Definition OTHER := "other".
Definition PERSON := "person".
Definition VEHICLE := "vehicle".
Definition VEHICLES : list string :=
  ["bicycle"; "car"; "motorcycle"; "airplane"; "bus"; "train"; "truck"].

Definition EVENT_OBJECT_DETECTED := "deepstack.object_detected".

Definition color : Type := (Z * Z * Z)%type.
Definition RED : color := (255, 0, 0)%Z.
Definition GREEN : color := (0, 255, 0)%Z.

(** [x in xs] for a list of strings. *)
Definition str_in (x : string) (xs : list string) : bool :=
  existsb (String.eqb x) xs.

(* ================================================================== *)
(** ** Geometry *)

Module Box.
Record t : Type := mk { y_min : float; x_min : float; y_max : float; x_max : float }.
End Box.

Module Point.
Record t : Type := mk { y : float; x : float }.
End Point.

Definition point_in_box (box : Box.t) (point : Point.t) : bool :=
  if ((Box.x_min box <=? Point.x point) && (Point.x point <=? Box.x_max box))%float
     && ((Box.y_min box <=? Point.y point) && (Point.y point <=? Box.y_max box))%float
  then true
  else false.

(** The dicts [roi] and [centroid]. *)
Module Roi.
Record t : Type := mk { y_min : float; x_min : float; y_max : float; x_max : float }.
End Roi.

Module Centroid.
Record t : Type := mk { x : float; y : float }.
End Centroid.

Definition object_in_roi (roi : Roi.t) (centroid : Centroid.t) : bool :=
  let target_center_point := Point.mk (Centroid.y centroid) (Centroid.x centroid) in
  let roi_box :=
    Box.mk (Roi.y_min roi) (Roi.x_min roi) (Roi.y_max roi) (Roi.x_max roi) in
  point_in_box roi_box target_center_point.

(* ================================================================== *)
(** ** Classifier and normaliser *)

Definition get_object_type (object_name : string) : string :=
  if String.eqb object_name PERSON then PERSON
  else if str_in object_name ANIMALS then ANIMAL
  else if str_in object_name VEHICLES then VEHICLE
  else OTHER.

(** A raw prediction of the detector. The pixel coordinates are floats; the
    integers the service sends behave the same below 2^53, where [int - int]
    and [int / int] agree with the float operations. *)
Module Pred.
Record t : Type := mk {
  label : string;
  confidence : float;
  x_min : float;
  y_min : float;
  x_max : float;
  y_max : float
}.
End Pred.

Module BBox.
Record t : Type := mk {
  height : float;
  width : float;
  y_min : float;
  x_min : float;
  y_max : float;
  x_max : float
}.
End BBox.

Module Obj.
Record t : Type := mk {
  bounding_box : BBox.t;
  box_area : float;
  centroid : Centroid.t;
  name : string;
  object_type : string;
  confidence : float
}.
End Obj.

Definition decimal_places : N := 3.

(** The body of the loop of [get_objects] for one prediction. *)
Definition get_object (pred : Pred.t) (img_width img_height : Z) : result Obj.t :=
  (let box_width := (Pred.x_max pred - Pred.x_min pred)%float in
   let box_height := (Pred.y_max pred - Pred.y_min pred)%float in
   h <- py_truediv box_height img_height ;;
   w <- py_truediv box_width img_width ;;
   y0 <- py_truediv (Pred.y_min pred) img_height ;;
   x0 <- py_truediv (Pred.x_min pred) img_width ;;
   y1 <- py_truediv (Pred.y_max pred) img_height ;;
   x1 <- py_truediv (Pred.x_max pred) img_width ;;
   let box :=
     BBox.mk (PyFloat.py_round h decimal_places)
             (PyFloat.py_round w decimal_places)
             (PyFloat.py_round y0 decimal_places)
             (PyFloat.py_round x0 decimal_places)
             (PyFloat.py_round y1 decimal_places)
             (PyFloat.py_round x1 decimal_places) in
   let box_area :=
     PyFloat.py_round (BBox.height box * BBox.width box)%float decimal_places in
   let centroid :=
     Centroid.mk
       (PyFloat.py_round (BBox.x_min box + BBox.width box / 2)%float decimal_places)
       (PyFloat.py_round (BBox.y_min box + BBox.height box / 2)%float decimal_places) in
   let name := Pred.label pred in
   let object_type := get_object_type name in
   let confidence :=
     PyFloat.py_round (Pred.confidence pred * 100)%float decimal_places in
   Ok (Obj.mk box box_area centroid name object_type confidence))%res.

(** [get_objects]: the loop appends one object per prediction to [objects]. *)
Fixpoint get_objects_loop (predictions : list Pred.t) (img_width img_height : Z)
    (objects : list Obj.t) : result (list Obj.t) :=
  match predictions with
  | [] => Ok objects
  | pred :: rest =>
      (o <- get_object pred img_width img_height ;;
       get_objects_loop rest img_width img_height (objects ++ [o]))%res
  end.

Definition get_objects (predictions : list Pred.t) (img_width img_height : Z)
    : result (list Obj.t) :=
  get_objects_loop predictions img_width img_height [].


(* ================================================================== *)
(** ** Text: [get_valid_filename] *)

(** A [str] as its code points. *)
Definition pystr : Type := list N.

Definition codes (s : string) : pystr :=
  map N_of_ascii (list_ascii_of_string s).

Definition between (lo hi c : N) : bool := ((lo <=? c) && (c <=? hi))%N.

(** [str.isspace] below 128: tab to carriage return, the four separators
    0x1c to 0x1f, and the space. *)
Definition ascii_isspace (c : N) : bool := between 9 13 c || between 28 32 c.

(** [str.isalnum] below 128. *)
Definition ascii_isalnum (c : N) : bool :=
  between 48 57 c || between 65 90 c || between 97 122 c.

Definition SPACE : N := 32.
Definition UNDERSCORE : N := 95.
Definition DASH : N := 45.
Definition DOT : N := 46.

Fixpoint dropwhile (p : N -> bool) (s : pystr) : pystr :=
  match s with
  | [] => []
  | c :: rest => if p c then dropwhile p rest else s
  end.

Section Text.

(** Python's Unicode tables above the ASCII range: the whitespace
    characters and the alphanumeric ones. *)
Variable uni_isspace : N -> bool.
Variable uni_isalnum : N -> bool.

Definition isspace (c : N) : bool :=
  if (c <? 128)%N then ascii_isspace c else uni_isspace c.

(** The class [\w] of a [str] pattern: alphanumeric or the underscore. *)
Definition isword (c : N) : bool :=
  if (c <? 128)%N then ascii_isalnum c || (c =? UNDERSCORE)%N else uni_isalnum c.

(** [s.strip()]: whitespace removed at both ends. *)
Definition strip (s : pystr) : pystr :=
  rev (dropwhile isspace (rev (dropwhile isspace s))).

(** [s.replace(" ", "_")]. *)
Definition replace_space (s : pystr) : pystr :=
  map (fun c => if (c =? SPACE)%N then UNDERSCORE else c) s.

(** A character the pattern [[^-\w.]] does not match, so [re.sub] keeps it. *)
Definition kept (c : N) : bool :=
  (c =? DASH)%N || isword c || (c =? DOT)%N.

(** [re.sub(r"(?u)[^-\w.]", "", s)]. *)
Definition re_sub_disallowed (s : pystr) : pystr := filter kept s.

Definition get_valid_filename (name : pystr) : pystr :=
  re_sub_disallowed (replace_space (strip name)).

End Text.

(* ================================================================== *)
(** ** The entity *)

(** An element of [self._targets]. [setup_platform] passes the validated
    configuration, whose entries are dicts with a target and a confidence
    ([TARGETS_SCHEMA]); the constructor itself takes any list, and the class
    also treats the elements as names. *)
Inductive pytarget : Type :=
| TargetEntry (target : string) (confidence : float)
| TargetName (name : string).

(** [s == t] for a str [s]: a str equals a str with the same text, and
    never a dict. *)
Definition str_eq_target (s : string) (t : pytarget) : bool :=
  match t with
  | TargetName n => String.eqb s n
  | TargetEntry _ _ => false
  end.

(** [s in targets]. *)
Definition in_targets (s : string) (targets : list pytarget) : bool :=
  existsb (str_eq_target s) targets.

(** Truth value of a str. *)
Definition truthy (s : string) : bool := negb (String.eqb s "").

Definition image : Type := list Byte.byte.

(** [directory / name] of pathlib, kept as its two operands. *)
Record path : Type := mkpath { directory : pystr; filename : pystr }.

Definition summary : Type := list (string * nat).

Record config : Type := mkconfig {
  _custom_model : string;
  _targets : list pytarget;
  _confidence : float;
  _camera : string;
  _name : pystr;
  _roi_dict : Roi.t;
  _show_boxes : bool;
  _save_file_folder : option pystr;
  _save_timestamped_file : bool;
  entity_id : string
}.

(** [self]: the attributes [__init__] sets once ([cfg]) and the ones
    [process_image] assigns. *)
Record entity : Type := mkentity {
  cfg : config;
  _state : option nat;
  _objects : list Obj.t;
  _targets_found : list Obj.t;
  _summary : summary;
  _last_detection : option pystr;
  _image_width : option Z;
  _image_height : option Z
}.

Definition set_state (v : option nat) (self : entity) : entity :=
  mkentity (cfg self) v (_objects self) (_targets_found self) (_summary self)
           (_last_detection self) (_image_width self) (_image_height self).
Definition set_objects (v : list Obj.t) (self : entity) : entity :=
  mkentity (cfg self) (_state self) v (_targets_found self) (_summary self)
           (_last_detection self) (_image_width self) (_image_height self).
Definition set_targets_found (v : list Obj.t) (self : entity) : entity :=
  mkentity (cfg self) (_state self) (_objects self) v (_summary self)
           (_last_detection self) (_image_width self) (_image_height self).
Definition set_summary (v : summary) (self : entity) : entity :=
  mkentity (cfg self) (_state self) (_objects self) (_targets_found self) v
           (_last_detection self) (_image_width self) (_image_height self).
Definition set_last_detection (v : option pystr) (self : entity) : entity :=
  mkentity (cfg self) (_state self) (_objects self) (_targets_found self)
           (_summary self) v (_image_width self) (_image_height self).
Definition set_image_size (w h : Z) (self : entity) : entity :=
  mkentity (cfg self) (_state self) (_objects self) (_targets_found self)
           (_summary self) (_last_detection self) (Some w) (Some h).

(** The entity as [__init__] leaves it. *)
Definition init (c : config) : entity :=
  mkentity c None [] [] [] None None None.

(** What a method does to the outside, in order. *)
Inductive box_text : Type :=
| RoiText                                          (* "ROI" *)
| ObjText (name : string) (confidence : float).    (* f"{name}: {confidence:.1f}%" *)

Record event_data : Type := mkevent {
  ev_object : Obj.t;                 (* target.copy() *)
  ev_entity_id : string;
  ev_saved_file : option path
}.

Inductive effect : Type :=
| LogError (exc : exn)               (* "Deepstack error : %s" *)
| LogWarning (msg : string)
| LogInfo (saved : path)             (* "Deepstack saved file %s" *)
| DrawBox (box : float * float * float * float) (img_width img_height : Z)
          (text : box_text) (c : color)
| DrawText (xy : float * float) (text : string) (fill : color)
| ImgSave (p : path)
| BusFire (event_type : string) (data : event_data).

(** The names bound in the module when a method runs: what the import
    statements bring in and what the module defines. *)
Definition module_globals : list string :=
  ["namedtuple"; "datetime"; "io"; "logging"; "os"; "re"; "timedelta";
   "Tuple"; "Dict"; "List"; "Path"; "Image"; "ImageDraw"; "ds"; "cv";
   "dt_util"; "vol"; "draw_box";
   "ATTR_CONFIDENCE"; "CONF_ENTITY_ID"; "CONF_NAME"; "CONF_SOURCE";
   "DEFAULT_CONFIDENCE"; "DOMAIN"; "PLATFORM_SCHEMA"; "ImageProcessingEntity";
   "ATTR_ENTITY_ID"; "ATTR_NAME"; "CONF_IP_ADDRESS"; "CONF_PORT";
   "HTTP_BAD_REQUEST"; "HTTP_OK"; "HTTP_UNAUTHORIZED"; "split_entity_id";
   "_LOGGER"; "ANIMAL"; "ANIMALS"; "OTHER"; "PERSON"; "VEHICLE"; "VEHICLES";
   "CONF_API_KEY"; "CONF_TARGET"; "CONF_TARGETS"; "CONF_TIMEOUT";
   "CONF_SAVE_FILE_FOLDER"; "CONF_SAVE_TIMESTAMPTED_FILE"; "CONF_SHOW_BOXES";
   "CONF_ROI_Y_MIN"; "CONF_ROI_X_MIN"; "CONF_ROI_Y_MAX"; "CONF_ROI_X_MAX";
   "CONF_CUSTOM_MODEL"; "DATETIME_FORMAT"; "DEFAULT_API_KEY";
   "DEFAULT_TARGETS"; "DEFAULT_TIMEOUT"; "DEFAULT_ROI_Y_MIN";
   "DEFAULT_ROI_Y_MAX"; "DEFAULT_ROI_X_MIN"; "DEFAULT_ROI_X_MAX";
   "DEFAULT_ROI"; "EVENT_OBJECT_DETECTED"; "BOX"; "FILE"; "OBJECT";
   "SAVED_FILE"; "RED"; "GREEN"; "YELLOW"; "TARGETS_SCHEMA"; "Box"; "Point";
   "point_in_box"; "object_in_roi"; "get_valid_filename"; "get_object_type";
   "get_objects"; "setup_platform"; "ObjectClassifyEntity"].

(** Name lookup: the module's globals (the builtins hold none of the names
    the except clauses of this module use). *)
Definition name_is_bound (n : string) : bool := str_in n module_globals.

Definition is_DeepstackException (e : exn) : bool :=
  match e with DeepstackException _ => true | _ => false end.

Definition is_UnidentifiedImageError (e : exn) : bool :=
  match e with UnidentifiedImageError => true | _ => false end.

(** *** The monad of the methods *)

Definition M (A : Type) : Type := entity -> result A * entity * list effect.

Definition ret {A} (a : A) : M A := fun self => (Ok a, self, []).

Definition bind {A B} (m : M A) (k : A -> M B) : M B :=
  fun self =>
    let '(r, self1, t1) := m self in
    match r with
    | Ok a => let '(r2, self2, t2) := k a self1 in (r2, self2, t1 ++ t2)
    | Raise e => (Raise e, self1, t1)
    end.

Definition lift {A} (r : result A) : M A := fun self => (r, self, []).
Definition get : M entity := fun self => (Ok self, self, []).
Definition modify (f : entity -> entity) : M unit := fun self => (Ok tt, f self, []).
Definition emit (e : effect) : M unit := fun self => (Ok tt, self, [e]).
Definition emits (es : list effect) : M unit := fun self => (Ok tt, self, es).
Definition when (b : bool) (m : M unit) : M unit := if b then m else ret tt.

(** [try: body  except <clause>: handler]. The clause is evaluated only when
    the body raises; a clause that names nothing raises [NameError] there. *)
Definition try_except {A} (body : M A) (clause : string) (isinstance : exn -> bool)
    (handler : exn -> M A) : M A :=
  fun self =>
    let '(r, self1, t1) := body self in
    match r with
    | Ok a => (Ok a, self1, t1)
    | Raise e =>
        if name_is_bound clause then
          if isinstance e then
            let '(r2, self2, t2) := handler e self1 in (r2, self2, t1 ++ t2)
          else (Raise e, self1, t1)
        else (Raise (NameError clause), self1, t1)
    end.

Declare Scope method_scope.
Delimit Scope method_scope with M.
Notation "x <- c ;; k" := (bind c (fun x => k))
  (at level 61, c at next level, right associativity) : method_scope.
Notation "c ;;; k" := (bind c (fun _ => k))
  (at level 61, right associativity) : method_scope.

(** *** Collaborators *)

(** What the outside answers during one call: PIL's decoder (the size of the
    image, or nothing when it raises [UnidentifiedImageError]), the detector
    [self._dsobject.detect], and the clock already formatted with
    [DATETIME_FORMAT]. *)
Record env : Type := mkenv {
  pil_open : image -> option (Z * Z);
  ds_detect : image -> result (list Pred.t);
  dt_now : pystr
}.

Definition Image_open (E : env) (img : image) : result (Z * Z) :=
  match pil_open E img with
  | Some size => Ok size
  | None => Raise UnidentifiedImageError
  end.

Definition DEFAULT_ROI : float * float * float * float := (0, 0, 1, 1)%float.

(** [a != b] for two 4-tuples of floats. *)
Definition tuple4_ne (a b : float * float * float * float) : bool :=
  let '(a1, a2, a3, a4) := a in
  let '(b1, b2, b3, b4) := b in
  negb ((a1 =? b1) && (a2 =? b2) && (a3 =? b3) && (a4 =? b4))%float.

(** The condition of the list comprehension that builds [_targets_found]. *)
Definition is_target (c : config) (obj : Obj.t) : bool :=
  (truthy (Obj.name obj) || in_targets (Obj.object_type obj) (_targets c))
  && (_confidence c <? Obj.confidence obj)%float
  && object_in_roi (_roi_dict c) (Obj.centroid obj).

(** The loop of [save_image] over the targets, with its [break]. *)
Fixpoint draw_targets (show_boxes : bool) (img_width img_height : Z)
    (targets : list Obj.t) : list effect :=
  match targets with
  | [] => []
  | obj :: rest =>
      if negb show_boxes then []
      else
        let name := Obj.name obj in
        let confidence := Obj.confidence obj in
        let box := Obj.bounding_box obj in
        let centroid := Obj.centroid obj in
        DrawBox (BBox.y_min box, BBox.x_min box, BBox.y_max box, BBox.x_max box)
                img_width img_height (ObjText name confidence) RED
        :: DrawText ((Centroid.x centroid * PyFloat.float_of_int img_width)%float,
                     (Centroid.y centroid * PyFloat.float_of_int img_height)%float)
                    "X" RED
        :: draw_targets show_boxes img_width img_height rest
  end.

Section Methods.

Variable uni_isspace : N -> bool.
Variable uni_isalnum : N -> bool.
(** [str.lower]. *)
Variable str_lower : pystr -> pystr.
(** [deepstack.core.get_objects_summary]. *)
Variable get_objects_summary : list Pred.t -> summary.

Definition save_image (E : env) (img_bytes : image) (targets : list Obj.t)
    (dir : pystr) : M (option path) :=
  (opened <- try_except
               (size <- lift (Image_open E img_bytes) ;; ret (Some size))
               "UnidentifiedImageError" is_UnidentifiedImageError
               (fun _ =>
                  emit (LogWarning "Deepstack unable to process image, bad data") ;;;
                  ret None) ;;
   match opened with
   | None => ret None
   | Some (img_width, img_height) =>
       self <- get ;;
       let c := cfg self in
       let roi := _roi_dict c in
       let roi_tuple :=
         (Roi.y_min roi, Roi.x_min roi, Roi.y_max roi, Roi.x_max roi) in
       when (tuple4_ne roi_tuple DEFAULT_ROI && _show_boxes c)
            (emit (DrawBox roi_tuple img_width img_height RoiText GREEN)) ;;;
       emits (draw_targets (_show_boxes c) img_width img_height targets) ;;;
       let latest_save_path :=
         mkpath dir
           (str_lower (get_valid_filename uni_isspace uni_isalnum (_name c))
            ++ codes "_latest.jpg") in
       emit (LogInfo latest_save_path) ;;;
       emit (ImgSave latest_save_path) ;;;
       if _save_timestamped_file c then
         let stamp :=
           match _last_detection self with
           | Some t => t
           | None => codes "None"
           end in
         let timestamp_save_path :=
           mkpath dir (_name c ++ codes "_" ++ stamp ++ codes ".jpg") in
         emit (ImgSave timestamp_save_path) ;;;
         emit (LogInfo timestamp_save_path) ;;;
         ret (Some timestamp_save_path)
       else ret (Some latest_save_path)
   end)%M.

Definition fire_events (saved_image_path : option path) : M unit :=
  (self <- get ;;
   emits (map (fun target =>
                 BusFire EVENT_OBJECT_DETECTED
                         (mkevent target (entity_id (cfg self)) saved_image_path))
              (_targets_found self)))%M.

Definition process_image (E : env) (img_bytes : image) : M unit :=
  (size <- lift (Image_open E img_bytes) ;;
   let '(width, height) := size in
   modify (set_image_size width height) ;;;
   modify (set_state None) ;;;
   modify (set_objects []) ;;;
   modify (set_targets_found []) ;;;
   modify (set_summary []) ;;;
   detected <- try_except
                 (predictions <- lift (ds_detect E img_bytes) ;; ret (Some predictions))
                 "ds" is_DeepstackException
                 (fun exc => emit (LogError exc) ;;; ret None) ;;
   match detected with
   | None => ret tt
   | Some predictions =>
       modify (set_summary (get_objects_summary predictions)) ;;;
       objects <- lift (get_objects predictions width height) ;;
       modify (set_objects objects) ;;;
       self <- get ;;
       let targets_found := filter (is_target (cfg self)) (_objects self) in
       modify (set_targets_found targets_found) ;;;
       let state := List.length targets_found in
       modify (set_state (Some state)) ;;;
       when (0 <? state)%nat (modify (set_last_detection (Some (dt_now E)))) ;;;
       saved_image_path <-
         match _save_file_folder (cfg self) with
         | Some folder =>
             if (0 <? state)%nat
             then save_image E img_bytes targets_found folder
             else ret None
         | None => ret None
         end ;;
       fire_events saved_image_path
   end)%M.

(** The entity after a series of calls of [process_image], whatever each
    call returned or raised. *)
Fixpoint run_cycles (cycles : list (env * image)) (self : entity) : entity :=
  match cycles with
  | [] => self
  | (E, img_bytes) :: rest =>
      let '(_, self1, _) := process_image E img_bytes self in
      run_cycles rest self1
  end.

End Methods.

(* ================================================================== *)
(** ** Reading a method's result *)

Definition outcome {A} (x : result A * entity * list effect) : result A := fst (fst x).
Definition entity_after {A} (x : result A * entity * list effect) : entity := snd (fst x).
Definition trace {A} (x : result A * entity * list effect) : list effect := snd x.

Definition is_ImgSave (e : effect) : bool :=
  match e with ImgSave _ => true | _ => false end.
Definition is_BusFire (e : effect) : bool :=
  match e with BusFire _ _ => true | _ => false end.

(** The attributes as [process_image] resets them once the image is open. *)
Definition reset_cycle (width height : Z) (self : entity) : entity :=
  set_summary [] (set_targets_found [] (set_objects [] (set_state None
    (set_image_size width height self)))).

(** The number of targets a call of [process_image] finds, when the call
    gets as far as counting them. *)
Definition cycle_found (c : config) (E : env) (img_bytes : image) : option nat :=
  match pil_open E img_bytes with
  | None => None
  | Some (width, height) =>
      match ds_detect E img_bytes with
      | Raise _ => None
      | Ok predictions =>
          match get_objects predictions width height with
          | Raise _ => None
          | Ok objects => Some (List.length (filter (is_target c) objects))
          end
      end
  end.

Definition positive_count (n : option nat) : bool :=
  match n with
  | Some (S _) => true
  | _ => false
  end.

(* ================================================================== *)
(** ** The target matcher as the specification words it *)

(** The configured target set: the names the target entries carry. *)
Definition target_names (targets : list pytarget) : list string :=
  map (fun t => match t with TargetEntry n _ => n | TargetName n => n end) targets.

(** (name in target set OR object_type in target set) AND confidence >
    threshold AND centroid inside the ROI. *)
Definition spec_is_target (c : config) (obj : Obj.t) : bool :=
  (str_in (Obj.name obj) (target_names (_targets c))
   || str_in (Obj.object_type obj) (target_names (_targets c)))
  && (_confidence c <? Obj.confidence obj)%float
  && object_in_roi (_roi_dict c) (Obj.centroid obj).

Definition spec_targets_found (c : config) (objects : list Obj.t) : list Obj.t :=
  filter (spec_is_target c) objects.



Definition with_targets (targets : list pytarget) (c : config) : config :=
  mkconfig (_custom_model c) targets (_confidence c) (_camera c) (_name c)
           (_roi_dict c) (_show_boxes c) (_save_file_folder c)
           (_save_timestamped_file c) (entity_id c).

(* ================================================================== *)
(** ** Sample data *)

(** The detection of the normaliser's test: a dog on a 100 x 200 image. *)
Definition dog_prediction : Pred.t := Pred.mk "dog" 0.85 10 20 50 60.

Definition dog_object : Obj.t :=
  Obj.mk (BBox.mk 0.2 0.4 0.1 0.1 0.3 0.5) 0.08 (Centroid.mk 0.3 0.2)
         "dog" "animal" 85.


(** A detection without a label, and a person seen with 60 % confidence. *)
Definition nameless_prediction : Pred.t := Pred.mk "" 0.9 10 20 50 60.
Definition person_prediction : Pred.t := Pred.mk "person" 0.6 10 20 50 60.

Definition full_roi : Roi.t := Roi.mk 0 0 1 1.

(** The default configuration of a camera named "My Cam #1": the target
    "person" with the default confidence 80, the whole image as ROI. *)
Definition person_config (save_file_folder : option pystr) : config :=
  mkconfig "" [TargetEntry "person" 80] 80 "camera.my_cam"
           (codes "My Cam #1") full_roi true save_file_folder false
           "image_processing.my_cam".


Definition stamp : pystr := codes "2020-05-17_10-30-00".

Definition later_stamp : pystr := codes "2020-05-17_10-30-10".

(** An image PIL opens as 100 x 200, on which the detector returns
    [predictions] at the time [now]. *)
Definition seeing_at (now : pystr) (predictions : list Pred.t) : env :=
  mkenv (fun _ => Some (100, 200)%Z) (fun _ => Ok predictions) now.

Definition seeing (predictions : list Pred.t) : env := seeing_at stamp predictions.

(** The detector fails. *)
Definition detector_down : env :=
  mkenv (fun _ => Some (100, 200)%Z)
        (fun _ => Raise (DeepstackException "timeout")) later_stamp.

(** Bytes PIL cannot identify. *)
Definition not_an_image : image := [Byte.x00; Byte.x01; Byte.x02].
Definition undecodable : env :=
  mkenv (fun _ => None) (fun _ => Ok [dog_prediction]) stamp.

(** Stand-ins for the Unicode tables on U+0080 to U+00FF: the no-break
    space, and the accented letters. *)
Definition latin1_isspace (c : N) : bool := (c =? 160)%N.
Definition latin1_isalnum (c : N) : bool :=
  between 192 214 c || between 216 246 c || between 248 255 c.

(** [str.lower] on ASCII text. *)
Definition ascii_lower (s : pystr) : pystr :=
  map (fun c => if between 65 90 c then (c + 32)%N else c) s.

(** [get_objects_summary]: the count of every label, in order of first
    appearance. *)
Fixpoint count_label (l : string) (acc : summary) : summary :=
  match acc with
  | [] => [(l, 1%nat)]
  | (k, n) :: rest =>
      if String.eqb k l then (k, S n) :: rest else (k, n) :: count_label l rest
  end.

Definition label_counts (predictions : list Pred.t) : summary :=
  fold_left (fun acc p => count_label (Pred.label p) acc) predictions [].

(** The attributes after a call that counted its targets. *)
Definition counted_cycle (now : pystr) (s : summary) (objects : list Obj.t)
    (self : entity) : entity :=
  let found := filter (is_target (cfg self)) objects in
  let n := List.length found in
  let self1 :=
    set_state (Some n) (set_targets_found found (set_objects objects
      (set_summary s self))) in
  if (0 <? n)%nat then set_last_detection (Some now) self1 else self1.

(** The first bytes of a JPEG frame. *)
Definition a_frame : image := [Byte.xff; Byte.xd8; Byte.xff; Byte.xe0].

Definition nameless_object : Obj.t :=
  Obj.mk (BBox.mk 0.2 0.4 0.1 0.1 0.3 0.5) 0.08 (Centroid.mk 0.3 0.2)
         "" "other" 90.

Definition person_object (confidence : float) : Obj.t :=
  Obj.mk (BBox.mk 0.2 0.4 0.1 0.1 0.3 0.5) 0.08 (Centroid.mk 0.3 0.2)
         "person" "person" confidence.

Definition sure_person_prediction : Pred.t := Pred.mk "person" 0.85 10 20 50 60.

(* ================================================================== *)
(** ** The rest of the entity *)

(** The same entity with another confidence, or another region. *)
Definition with_confidence (confidence : float) (c : config) : config :=
  mkconfig (_custom_model c) (_targets c) confidence (_camera c) (_name c)
           (_roi_dict c) (_show_boxes c) (_save_file_folder c)
           (_save_timestamped_file c) (entity_id c).

Definition with_roi (roi : Roi.t) (c : config) : config :=
  mkconfig (_custom_model c) (_targets c) (_confidence c) (_camera c) (_name c)
           roi (_show_boxes c) (_save_file_folder c)
           (_save_timestamped_file c) (entity_id c).

(** [inner] lies inside [outer], bound by bound. *)
Definition roi_inside (inner outer : Roi.t) : Prop :=
  PyFloat.le (Roi.x_min outer) (Roi.x_min inner)
  /\ PyFloat.le (Roi.x_max inner) (Roi.x_max outer)
  /\ PyFloat.le (Roi.y_min outer) (Roi.y_min inner)
  /\ PyFloat.le (Roi.y_max inner) (Roi.y_max outer).

Definition box_inside (inner outer : Box.t) : Prop :=
  PyFloat.le (Box.x_min outer) (Box.x_min inner)
  /\ PyFloat.le (Box.x_max inner) (Box.x_max outer)
  /\ PyFloat.le (Box.y_min outer) (Box.y_min inner)
  /\ PyFloat.le (Box.y_max inner) (Box.y_max outer).

(** *** [device_state_attributes] *)

(** The keys of the dict the property builds. The two counts of a target are
    keyed by the text [f"ROI {target} count"] and [f"ALL {target} count"];
    the key is kept as the target it formats. *)
Inductive attr_key : Type :=
| KTargets
| KRoiCount (target : pytarget)
| KAllCount (target : pytarget)
| KLastTargetDetection
| KCustomModel
| KSummary
| KSaveFileFolder
| KSaveTimestampedFile.

Inductive attr_value : Type :=
| VTargets (targets : list pytarget)
| VCount (n : nat)
| VStamp (s : pystr)
| VText (s : string)
| VSummary (s : summary)
| VFolder (dir : pystr)
| VBool (b : bool).

(** [len([t for t in objs if t["name"] == target])]. *)
Definition count_named (target : pytarget) (objs : list Obj.t) : nat :=
  List.length (filter (fun t => str_eq_target (Obj.name t) target) objs).

(** The assignments [attr[key] = value] of the property, in order. *)
Definition device_state_attributes (self : entity) : list (attr_key * attr_value) :=
  let c := cfg self in
  [(KTargets, VTargets (_targets c))]
  ++ flat_map (fun target =>
                 [(KRoiCount target, VCount (count_named target (_targets_found self)));
                  (KAllCount target, VCount (count_named target (_objects self)))])
              (_targets c)
  ++ match _last_detection self with
     | Some (ch :: rest) => [(KLastTargetDetection, VStamp (ch :: rest))]
     | _ => []
     end
  ++ (if truthy (_custom_model c) then [(KCustomModel, VText (_custom_model c))] else [])
  ++ [(KSummary, VSummary (_summary self))]
  ++ match _save_file_folder c with
     | Some dir => [(KSaveFileFolder, VFolder dir)]
     | None => []
     end
  ++ (if _save_timestamped_file c
      then [(KSaveTimestampedFile, VBool (_save_timestamped_file c))]
      else []).

Definition is_entry (t : pytarget) : bool :=
  match t with TargetEntry _ _ => true | TargetName _ => false end.

(** *** What the attributes of an entity have in common after every call *)

Definition consistent (self : entity) : Prop :=
  _targets_found self = filter (is_target (cfg self)) (_objects self)
  /\ match _state self with
     | Some n => n = List.length (_targets_found self)
     | None => _objects self = []
     end.

(** *** The effects of [save_image] by kind *)

Definition is_drawing (e : effect) : bool :=
  match e with DrawBox _ _ _ _ _ | DrawText _ _ _ => true | _ => false end.

(** What the body of the loop of [save_image] draws for one target. *)
Definition draw_target (img_width img_height : Z) (obj : Obj.t) : list effect :=
  let box := Obj.bounding_box obj in
  let centroid := Obj.centroid obj in
  [DrawBox (BBox.y_min box, BBox.x_min box, BBox.y_max box, BBox.x_max box)
           img_width img_height (ObjText (Obj.name obj) (Obj.confidence obj)) RED;
   DrawText ((Centroid.x centroid * PyFloat.float_of_int img_width)%float,
             (Centroid.y centroid * PyFloat.float_of_int img_height)%float)
            "X" RED].

Definition roi_tuple (roi : Roi.t) : float * float * float * float :=
  (Roi.y_min roi, Roi.x_min roi, Roi.y_max roi, Roi.x_max roi).

Section SavedPaths.

Variable uni_isspace : N -> bool.
Variable uni_isalnum : N -> bool.
Variable str_lower : pystr -> pystr.

(** [latest_save_path] and [timestamp_save_path] of [save_image]. *)
Definition latest_save_path (c : config) (dir : pystr) : path :=
  mkpath dir
    (str_lower (get_valid_filename uni_isspace uni_isalnum (_name c))
     ++ codes "_latest.jpg").

Definition timestamp_save_path (c : config) (dir : pystr)
    (last_detection : option pystr) : path :=
  mkpath dir
    (_name c ++ codes "_"
     ++ match last_detection with Some t => t | None => codes "None" end
     ++ codes ".jpg").

(** Everything [save_image] does on an image that opens, in order. *)
Definition save_image_effects (c : config) (last_detection : option pystr)
    (img_width img_height : Z) (targets : list Obj.t) (dir : pystr) : list effect :=
  (if tuple4_ne (roi_tuple (_roi_dict c)) DEFAULT_ROI && _show_boxes c
   then [DrawBox (roi_tuple (_roi_dict c)) img_width img_height RoiText GREEN]
   else [])
  ++ draw_targets (_show_boxes c) img_width img_height targets
  ++ [LogInfo (latest_save_path c dir); ImgSave (latest_save_path c dir)]
  ++ (if _save_timestamped_file c
      then [ImgSave (timestamp_save_path c dir last_detection);
            LogInfo (timestamp_save_path c dir last_detection)]
      else []).

Definition saved_image_path (c : config) (last_detection : option pystr)
    (dir : pystr) : path :=
  if _save_timestamped_file c
  then timestamp_save_path c dir last_detection
  else latest_save_path c dir.

End SavedPaths.

(** The time of the last call, among [cycles], that counts a positive number
    of targets under the configuration [c]; [acc] when there is none. *)
Definition last_positive (c : config) (cycles : list (env * image))
    (acc : option pystr) : option pystr :=
  fold_left (fun acc cy =>
               if positive_count (cycle_found c (fst cy) (snd cy))
               then Some (dt_now (fst cy))
               else acc)
            cycles acc.

(** A camera that is told the names to count. *)
Definition named_config : config :=
  with_targets [TargetName "person"] (person_config (Some (codes "/config/www"))).

(* ================================================================== *)
(** * Properties *)

(** ** Python floats: rounding and order *)

(** [round] as the interpreter computes it: 2.675 is stored below the
    decimal and rounds down, halves go to the even neighbour, the sign of a
    zero result is kept. *)
Example py_round_examples :
  PyFloat.py_round 2.675 2 = 2.67%float
  /\ PyFloat.py_round 0.5 0 = 0%float
  /\ PyFloat.py_round 1.5 0 = 2%float
  /\ PyFloat.py_round 2.5 0 = 2%float
  /\ PyFloat.py_round 0.0005 3 = 0.001%float
  /\ PyFloat.py_round (-0.0004) 3 = (-0)%float
  /\ PyFloat.py_round 0.30000000000000004 3 = 0.3%float
  /\ PyFloat.py_round infinity 3 = infinity.
Proof. vm_compute. repeat split. Qed.

(** The classifier on the labels of the specification's tests. *)
Example get_object_type_examples :
  get_object_type "dog" = "animal"
  /\ get_object_type "car" = "vehicle"
  /\ get_object_type "person" = "person"
  /\ get_object_type "couch" = "other"
  /\ get_object_type "" = "other".
Proof. repeat split. Qed.

Module FloatOrder.

(** [a <= p], [p <= b] and [b < a] cannot hold together: the comparison of
    the specification orders signs, exponents and mantissas
    lexicographically, and NaN compares with nothing. *)
Lemma SFleb_chain_not_gt (a p b : spec_float) :
  SFleb a p = true -> SFleb p b = true -> SFltb b a = false.
Proof.
  unfold SFleb, SFltb, SFcompare.
  destruct a as [sa|sa| |sa ma ea], p as [sp|sp| |sp mp ep], b as [sb|sb| |sb mb eb];
    try destruct sa; try destruct sp; try destruct sb;
    try reflexivity; try discriminate;
    repeat match goal with
           | |- context [Z.compare ?u ?v] => destruct (Z.compare_spec u v)
           | |- context [Pos.compare_cont Eq ?u ?v] =>
               change (Pos.compare_cont Eq u v) with (Pos.compare u v);
               destruct (Pos.compare_spec u v)
           end;
    simpl; intros; try reflexivity; try discriminate; try lia.
Qed.

Lemma leb_chain_not_gt (a p b : float) :
  (a <=? p)%float = true -> (p <=? b)%float = true -> (b <? a)%float = false.
Proof.
  rewrite !leb_spec, ltb_spec. apply SFleb_chain_not_gt.
Qed.

End FloatOrder.

(** ** Geometry *)

(** C8. For every box [B] and point [P], [point_in_box B P] is true exactly
    when [B.x_min <= P.x <= B.x_max] and [B.y_min <= P.y <= B.y_max], the
    bounds included on both axes; hence a box whose minimum exceeds its
    maximum on either axis contains no point. *)
Theorem point_in_box_spec (B : Box.t) (P : Point.t) :
  (point_in_box B P = true <->
   (PyFloat.le (Box.x_min B) (Point.x P) /\ PyFloat.le (Point.x P) (Box.x_max B))
   /\ (PyFloat.le (Box.y_min B) (Point.y P) /\ PyFloat.le (Point.y P) (Box.y_max B)))
  /\ (PyFloat.lt (Box.x_max B) (Box.x_min B) \/ PyFloat.lt (Box.y_max B) (Box.y_min B) ->
      point_in_box B P = false).
Proof.
  assert (Hiff : point_in_box B P = true <->
    (PyFloat.le (Box.x_min B) (Point.x P) /\ PyFloat.le (Point.x P) (Box.x_max B))
    /\ (PyFloat.le (Box.y_min B) (Point.y P) /\ PyFloat.le (Point.y P) (Box.y_max B))).
  { unfold point_in_box, PyFloat.le.
    destruct (Box.x_min B <=? Point.x P)%float, (Point.x P <=? Box.x_max B)%float,
             (Box.y_min B <=? Point.y P)%float, (Point.y P <=? Box.y_max B)%float;
      simpl; intuition congruence. }
  split; [exact Hiff|].
  intros Hbad.
  apply not_true_is_false. intros Hin.
  apply Hiff in Hin. destruct Hin as [[Hx1 Hx2] [Hy1 Hy2]].
  unfold PyFloat.le, PyFloat.lt in *.
  destruct Hbad as [Hbad|Hbad].
  - rewrite (FloatOrder.leb_chain_not_gt _ _ _ Hx1 Hx2) in Hbad. discriminate.
  - rewrite (FloatOrder.leb_chain_not_gt _ _ _ Hy1 Hy2) in Hbad. discriminate.
Qed.

(** The unit box holds its corner (1, 1) and its centre; the point just right
    of it is outside; a box with [x_min = 0.8 > x_max = 0.2] rejects the
    point (0.5, 0.5). *)
Lemma point_in_box_spec_witness :
  point_in_box (Box.mk 0 0 1 1) (Point.mk 1 1) = true
  /\ point_in_box (Box.mk 0 0 1 1) (Point.mk 0.5 0.5) = true
  /\ point_in_box (Box.mk 0 0 1 1) (Point.mk 0.5 1.001) = false
  /\ point_in_box (Box.mk 0 0.8 1 0.2) (Point.mk 0.5 0.5) = false.
Proof.
  split; [reflexivity|]. split; [reflexivity|]. split; [reflexivity|].
  apply (proj2 (point_in_box_spec (Box.mk 0 0.8 1 0.2) (Point.mk 0.5 0.5))).
  left. reflexivity.
Defined.

(** ** The normaliser *)



(** The loop returns its accumulator followed by one object per prediction,
    in the order of the predictions. *)
Lemma get_objects_loop_inv (w h : Z) (preds : list Pred.t) :
  forall acc r,
    get_objects_loop preds w h acc = Ok r ->
    exists objs,
      r = acc ++ objs /\ Forall2 (fun p o => get_object p w h = Ok o) preds objs.
Proof.
  induction preds as [|p preds IH]; intros acc r Hrun; simpl in Hrun.
  - injection Hrun as <-. exists []. split; [now rewrite app_nil_r|constructor].
  - destruct (get_object p w h) as [o|e] eqn:Ho; simpl in Hrun; [|discriminate].
    destruct (IH (acc ++ [o]) r Hrun) as (objs & -> & Hall).
    exists (o :: objs). split.
    + now rewrite <- app_assoc.
    + constructor; assumption.
Qed.





(** ** The file-name slug *)

Lemma dropwhile_incl (p : N -> bool) (s : pystr) (c : N) :
  In c (dropwhile p s) -> In c s.
Proof.
  induction s as [|d s IH]; simpl; [tauto|].
  destruct (p d); simpl; tauto.
Qed.

Lemma dropwhile_none (p : N -> bool) (s : pystr) :
  Forall (fun c => p c = false) s -> dropwhile p s = s.
Proof.
  destruct 1 as [|c s Hc _]; simpl; [reflexivity|]. now rewrite Hc.
Qed.

Lemma replace_space_fixed (s : pystr) :
  Forall (fun c => c <> SPACE) s -> replace_space s = s.
Proof.
  induction 1 as [|c s Hc _ IH]; simpl; [reflexivity|].
  rewrite IH. destruct (N.eqb_spec c SPACE); [contradiction|reflexivity].
Qed.

Lemma replace_space_In (s : pystr) (c : N) :
  In c (replace_space s) -> In c s \/ (c = UNDERSCORE /\ In SPACE s).
Proof.
  unfold replace_space. intros H. apply in_map_iff in H.
  destruct H as (d & Hd & Hin).
  destruct (N.eqb_spec d SPACE) as [Heq|_].
  - right. split; [symmetry; exact Hd|]. rewrite <- Heq. exact Hin.
  - left. rewrite <- Hd. exact Hin.
Qed.

Lemma filter_fixed (p : N -> bool) (s : pystr) :
  Forall (fun c => p c = true) s -> filter p s = s.
Proof.
  induction 1 as [|c s Hc _ IH]; simpl; [reflexivity|]. now rewrite Hc, IH.
Qed.

(** Below 128 a kept character is a letter, a digit or one of [_ - .];
    none of them is whitespace. *)
Lemma ascii_kept_not_space (c : N) :
  ((c =? DASH)%N || (ascii_isalnum c || (c =? UNDERSCORE)%N) || (c =? DOT)%N) = true ->
  ascii_isspace c = false /\ c <> SPACE.
Proof.
  unfold ascii_isspace, ascii_isalnum, between, SPACE, UNDERSCORE, DASH, DOT.
  intros Hk.
  rewrite !orb_true_iff, !andb_true_iff, !N.leb_le, !N.eqb_eq in Hk.
  split; [|lia].
  apply not_true_is_false. intros Hs.
  rewrite !orb_true_iff, !andb_true_iff, !N.leb_le in Hs. lia.
Qed.

Section TextProperties.

Variable uni_isspace : N -> bool.
Variable uni_isalnum : N -> bool.

Lemma strip_incl (s : pystr) (c : N) : In c (strip uni_isspace s) -> In c s.
Proof.
  unfold strip. intros H.
  apply in_rev in H. apply dropwhile_incl in H.
  apply in_rev in H. apply dropwhile_incl in H. exact H.
Qed.

Lemma strip_fixed (s : pystr) :
  Forall (fun c => isspace uni_isspace c = false) s -> strip uni_isspace s = s.
Proof.
  intros H. unfold strip.
  rewrite (dropwhile_none _ s H).
  rewrite dropwhile_none by (apply Forall_rev; exact H).
  apply rev_involutive.
Qed.

Lemma slug_kept (s : pystr) :
  Forall (fun c => kept uni_isalnum c = true)
         (get_valid_filename uni_isspace uni_isalnum s).
Proof.
  apply Forall_forall. intros c Hc. apply filter_In in Hc. tauto.
Qed.

Lemma slug_origin (s : pystr) (c : N) :
  In c (get_valid_filename uni_isspace uni_isalnum s) ->
  In c s \/ (c = UNDERSCORE /\ In SPACE s).
Proof.
  unfold get_valid_filename, re_sub_disallowed. intros H.
  apply filter_In in H. destruct H as [H _].
  apply replace_space_In in H.
  destruct H as [H|[-> H]]; [left|right; split; [reflexivity|]];
    apply strip_incl in H; exact H.
Qed.

Hypothesis space_not_alnum :
  forall c, (128 <= c)%N -> uni_isspace c = true -> uni_isalnum c = false.

Lemma kept_not_space (c : N) :
  kept uni_isalnum c = true -> isspace uni_isspace c = false /\ c <> SPACE.
Proof.
  unfold kept, isword, isspace.
  destruct (N.ltb_spec c 128) as [Hlt|Hge].
  - apply ascii_kept_not_space.
  - intros Hk. split; [|unfold SPACE; lia].
    destruct (uni_isspace c) eqn:Hs; [|reflexivity].
    rewrite (space_not_alnum c Hge Hs) in Hk.
    unfold DASH, DOT in Hk.
    rewrite !orb_true_iff, !N.eqb_eq in Hk.
    destruct Hk as [[Hk|Hk]|Hk]; try discriminate; lia.
Qed.

Lemma get_valid_filename_fixed (s : pystr) :
  Forall (fun c => kept uni_isalnum c = true) s ->
  get_valid_filename uni_isspace uni_isalnum s = s.
Proof.
  intros Hk.
  assert (Hs : Forall (fun c => isspace uni_isspace c = false) s).
  { eapply Forall_impl; [|exact Hk]. intros c Hc. apply kept_not_space, Hc. }
  assert (Hn : Forall (fun c => c <> SPACE) s).
  { eapply Forall_impl; [|exact Hk]. intros c Hc. apply kept_not_space, Hc. }
  unfold get_valid_filename, re_sub_disallowed.
  rewrite (strip_fixed s Hs), (replace_space_fixed s Hn).
  apply filter_fixed, Hk.
Qed.

End TextProperties.

(** C10. [get_valid_filename] is idempotent: its result holds only word
    characters, dots and dashes, hence no space and no whitespace at either
    end, and a second pass leaves it as it is. The Unicode tables enter
    through one fact: no whitespace character above the ASCII range is
    alphanumeric. *)
Theorem get_valid_filename_idempotent (uni_isspace uni_isalnum : N -> bool) :
  (forall c, (128 <= c)%N -> uni_isspace c = true -> uni_isalnum c = false) ->
  forall s : pystr,
    let slug := get_valid_filename uni_isspace uni_isalnum in
    slug (slug s) = slug s
    /\ Forall (fun c => kept uni_isalnum c = true
                        /\ c <> SPACE
                        /\ isspace uni_isspace c = false) (slug s).
Proof.
  intros Htab s slug. split.
  - apply get_valid_filename_fixed; [exact Htab|apply slug_kept].
  - eapply Forall_impl; [|apply slug_kept].
    intros c Hc. destruct (kept_not_space uni_isspace uni_isalnum Htab c Hc). auto.
Qed.

(** ** The methods *)

(** Opens a method down to the answers of its collaborators. *)
Ltac open_method f := unfold f, try_except, bind, lift, Image_open.

Lemma bound_ds : name_is_bound "ds" = true.
Proof. reflexivity. Qed.

Lemma unbound_UnidentifiedImageError :
  name_is_bound "UnidentifiedImageError" = false.
Proof. reflexivity. Qed.

Section MethodProperties.

Variable uni_isspace : N -> bool.
Variable uni_isalnum : N -> bool.
Variable str_lower : pystr -> pystr.
Variable get_objects_summary : list Pred.t -> summary.

(** [save_image] assigns no attribute of [self]. *)
Lemma save_image_entity (E : env) (img : image) (targets : list Obj.t)
    (dir : pystr) (self : entity) :
  entity_after (save_image uni_isspace uni_isalnum str_lower E img targets dir self)
  = self.
Proof.
  open_method save_image; unfold entity_after, when.
  destruct (pil_open E img) as [[w h]|]; cbn -[tuple4_ne get_valid_filename codes].
  - destruct (tuple4_ne _ _ && _show_boxes (cfg self));
      destruct (_save_timestamped_file (cfg self)); reflexivity.
  - reflexivity.
Qed.

Lemma process_image_undecodable (E : env) (img : image) (self : entity) :
  pil_open E img = None ->
  process_image uni_isspace uni_isalnum str_lower get_objects_summary E img self
  = (Raise UnidentifiedImageError, self, []).
Proof.
  intros Hopen. open_method process_image.
  rewrite Hopen. reflexivity.
Qed.

Lemma process_image_detector_error (E : env) (img : image) (self : entity)
    (w h : Z) (e : exn) :
  pil_open E img = Some (w, h) ->
  ds_detect E img = Raise e ->
  process_image uni_isspace uni_isalnum str_lower get_objects_summary E img self
  = if is_DeepstackException e
    then (Ok tt, reset_cycle w h self, [LogError e])
    else (Raise e, reset_cycle w h self, []).
Proof.
  intros Hopen Hdet.
  open_method process_image.
  rewrite Hopen, Hdet, bound_ds. cbn.
  destruct (is_DeepstackException e); reflexivity.
Qed.

Lemma process_image_normaliser_error (E : env) (img : image) (self : entity)
    (w h : Z) (predictions : list Pred.t) (e : exn) :
  pil_open E img = Some (w, h) ->
  ds_detect E img = Ok predictions ->
  get_objects predictions w h = Raise e ->
  process_image uni_isspace uni_isalnum str_lower get_objects_summary E img self
  = (Raise e, set_summary (get_objects_summary predictions) (reset_cycle w h self), []).
Proof.
  intros Hopen Hdet Hobj.
  open_method process_image.
  rewrite Hopen, Hdet. cbn -[get_objects]. rewrite Hobj. reflexivity.
Qed.

Lemma process_image_counted (E : env) (img : image) (self : entity)
    (w h : Z) (predictions : list Pred.t) (objects : list Obj.t) :
  pil_open E img = Some (w, h) ->
  ds_detect E img = Ok predictions ->
  get_objects predictions w h = Ok objects ->
  entity_after
    (process_image uni_isspace uni_isalnum str_lower get_objects_summary E img self)
  = counted_cycle (dt_now E) (get_objects_summary predictions) objects
                  (reset_cycle w h self).
Proof.
  intros Hopen Hdet Hobj.
  open_method process_image; unfold entity_after.
  rewrite Hopen, Hdet. cbn -[get_objects save_image]. rewrite Hobj.
  cbn -[get_objects save_image].
  unfold counted_cycle. cbn -[save_image].
  set (found := filter (is_target (cfg self)) objects).
  destruct (List.length found) as [|n] eqn:Hn; cbn -[save_image].
  - destruct (_save_file_folder (cfg self)); reflexivity.
  - destruct (_save_file_folder (cfg self)) as [folder|]; [|reflexivity].
    match goal with
    | |- context [save_image ?a ?b ?c ?d ?e ?f ?g ?s] =>
        pose proof (save_image_entity d e f g s) as Hsave;
        destruct (save_image a b c d e f g s) as [[r s'] t]
    end.
    unfold entity_after in Hsave. simpl in Hsave. subst.
    destruct r; reflexivity.
Qed.

End MethodProperties.

(** ** The target matcher *)

Section Matcher.

Variable uni_isspace : N -> bool.
Variable uni_isalnum : N -> bool.
Variable str_lower : pystr -> pystr.
Variable get_objects_summary : list Pred.t -> summary.

(** C1, on the code. The only target is "person" (confidence 80, whole
    image as ROI) and the detector reports one dog with confidence 0.85.
    Neither "dog" nor "animal" is in the target set, so the matcher of the
    specification finds nothing; [process_image] reports the dog as a found
    target and sets the state to 1. *)
Theorem dog_found_without_being_a_target :
  let r := process_image uni_isspace uni_isalnum str_lower get_objects_summary
             (seeing [dog_prediction]) a_frame (init (person_config None)) in
  _objects (entity_after r) = [dog_object]
  /\ _targets_found (entity_after r) = [dog_object]
  /\ _state (entity_after r) = Some 1%nat
  /\ target_names (_targets (person_config None)) = ["person"]
  /\ spec_targets_found (person_config None) (_objects (entity_after r)) = [].
Proof.
  vm_compute. repeat split.
Qed.

End Matcher.

(** C2, refuted. A detection with an empty name, confidence 90 above the
    threshold 80 and its centroid inside the ROI is not a found target when
    the only target is "person". *)
Lemma empty_name_is_not_found :
  let r := process_image latin1_isspace latin1_isalnum ascii_lower label_counts
             (seeing [nameless_prediction]) a_frame (init (person_config None)) in
  _objects (entity_after r) = [nameless_object]
  /\ Obj.name nameless_object = ""
  /\ (_confidence (person_config None) <? Obj.confidence nameless_object)%float = true
  /\ object_in_roi (_roi_dict (person_config None)) (Obj.centroid nameless_object) = true
  /\ is_target (person_config None) nameless_object = false
  /\ _targets_found (entity_after r) = []
  /\ _state (entity_after r) = Some 0%nat.
Proof.
  vm_compute. repeat split.
Qed.

(** C2, amended. For a detection with an empty name the name/type part of
    the test is the membership of its object type in the configured targets,
    nothing more: it is a found target exactly when that membership holds,
    its confidence exceeds the threshold and its centroid is inside the
    ROI. *)
Theorem empty_name_falls_back_to_type (c : config) (obj : Obj.t) :
  Obj.name obj = "" ->
  is_target c obj
  = in_targets (Obj.object_type obj) (_targets c)
    && (_confidence c <? Obj.confidence obj)%float
    && object_in_roi (_roi_dict c) (Obj.centroid obj).
Proof.
  intros Hname. unfold is_target, truthy. rewrite Hname. reflexivity.
Qed.

Lemma empty_name_falls_back_to_type_witness :
  Obj.name nameless_object = ""
  /\ is_target (with_targets [TargetName "other"] (person_config None)) nameless_object
     = in_targets "other" [TargetName "other"]
       && (80 <? 90)%float
       && object_in_roi full_roi (Centroid.mk 0.3 0.2).
Proof.
  split; [reflexivity|].
  apply (empty_name_falls_back_to_type
           (with_targets [TargetName "other"] (person_config None)) nameless_object).
  reflexivity.
Defined.





(** ** Failures *)

Section Failures.

Variable uni_isspace : N -> bool.
Variable uni_isalnum : N -> bool.
Variable str_lower : pystr -> pystr.
Variable get_objects_summary : list Pred.t -> summary.

(** C4. When the image opens and the detector raises a
    [DeepstackException], [process_image] logs the error and returns
    without raising; the state is [None], the objects, the found targets
    and the summary are empty, the last detection is untouched, and the
    call saves no file and fires no event: the log line is all it does. *)
Theorem detector_failure_aborts_cycle (E : env) (img : image) (self : entity)
    (w h : Z) (msg : string) :
  pil_open E img = Some (w, h) ->
  ds_detect E img = Raise (DeepstackException msg) ->
  let r := process_image uni_isspace uni_isalnum str_lower get_objects_summary
             E img self in
  outcome r = Ok tt
  /\ trace r = [LogError (DeepstackException msg)]
  /\ filter is_ImgSave (trace r) = []
  /\ filter is_BusFire (trace r) = []
  /\ _state (entity_after r) = None
  /\ _objects (entity_after r) = []
  /\ _targets_found (entity_after r) = []
  /\ _summary (entity_after r) = []
  /\ _last_detection (entity_after r) = _last_detection self.
Proof.
  intros Hopen Hdet r. subst r.
  rewrite (process_image_detector_error uni_isspace uni_isalnum str_lower
             get_objects_summary E img self w h _ Hopen Hdet).
  cbn. repeat split.
Qed.

(** C5, on the code. When PIL cannot identify the bytes, [save_image]
    writes no file, but it logs nothing either and an exception does
    escape: the except clause names [UnidentifiedImageError], which the
    module never imports, so looking the name up raises [NameError]. *)
Theorem save_image_undecodable_raises (E : env) (img : image)
    (targets : list Obj.t) (dir : pystr) (self : entity) :
  pil_open E img = None ->
  save_image uni_isspace uni_isalnum str_lower E img targets dir self
  = (Raise (NameError "UnidentifiedImageError"), self, []).
Proof.
  intros Hopen.
  open_method save_image.
  rewrite Hopen, unbound_UnidentifiedImageError. reflexivity.
Qed.

End Failures.

Lemma detector_failure_aborts_cycle_witness :
  let self := set_state (Some 2%nat) (set_last_detection (Some stamp)
                (init (person_config (Some (codes "/config/www"))))) in
  let r := process_image latin1_isspace latin1_isalnum ascii_lower label_counts
             detector_down a_frame self in
  outcome r = Ok tt
  /\ trace r = [LogError (DeepstackException "timeout")]
  /\ filter is_ImgSave (trace r) = []
  /\ filter is_BusFire (trace r) = []
  /\ _state (entity_after r) = None
  /\ _objects (entity_after r) = []
  /\ _targets_found (entity_after r) = []
  /\ _summary (entity_after r) = []
  /\ _last_detection (entity_after r) = Some stamp.
Proof.
  apply (detector_failure_aborts_cycle latin1_isspace latin1_isalnum ascii_lower
           label_counts detector_down a_frame
           (set_state (Some 2%nat) (set_last_detection (Some stamp)
              (init (person_config (Some (codes "/config/www"))))))
           100%Z 200%Z "timeout"); reflexivity.
Defined.

Lemma save_image_undecodable_raises_witness :
  save_image latin1_isspace latin1_isalnum ascii_lower undecodable not_an_image
             [dog_object] (codes "/config/www")
             (init (person_config (Some (codes "/config/www"))))
  = (Raise (NameError "UnidentifiedImageError"),
     init (person_config (Some (codes "/config/www"))), []).
Proof.
  apply (save_image_undecodable_raises latin1_isspace latin1_isalnum ascii_lower
           undecodable not_an_image [dog_object] (codes "/config/www")
           (init (person_config (Some (codes "/config/www"))))).
  reflexivity.
Defined.

(** ** The last detection *)

Section LastDetection.

Variable uni_isspace : N -> bool.
Variable uni_isalnum : N -> bool.
Variable str_lower : pystr -> pystr.
Variable get_objects_summary : list Pred.t -> summary.

(** One call: the configuration stays, the state is the count of the call
    when there is one, and the last detection becomes the time of the call
    when the count is positive and is kept otherwise. *)
Lemma process_image_step (E : env) (img : image) (self : entity) :
  let self' := entity_after (process_image uni_isspace uni_isalnum str_lower get_objects_summary E img self) in
  cfg self' = cfg self
  /\ (forall n, cycle_found (cfg self) E img = Some n ->
                _state self' = Some n
                /\ List.length (_targets_found self') = n)
  /\ _last_detection self'
     = if positive_count (cycle_found (cfg self) E img)
       then Some (dt_now E)
       else _last_detection self.
Proof.
  unfold cycle_found.
  destruct (pil_open E img) as [[w h]|] eqn:Hopen.
  - destruct (ds_detect E img) as [predictions|e] eqn:Hdet.
    + destruct (get_objects predictions w h) as [objects|e] eqn:Hobj.
      * cbv zeta.
        rewrite (process_image_counted uni_isspace uni_isalnum str_lower
                   get_objects_summary E img self w h predictions objects
                   Hopen Hdet Hobj).
        unfold counted_cycle. cbn [cfg reset_cycle set_summary set_targets_found
                                   set_objects set_state set_image_size].
        destruct (List.length (filter (is_target (cfg self)) objects))
          as [|n] eqn:Hn; cbn.
        -- split; [reflexivity|]. split; [|reflexivity].
           intros k Hsome. injection Hsome as <-.
           split; [reflexivity|exact Hn].
        -- split; [reflexivity|]. split; [|reflexivity].
           intros k Hsome. injection Hsome as <-.
           split; [reflexivity|exact Hn].
      * rewrite (process_image_normaliser_error uni_isspace uni_isalnum str_lower
                   get_objects_summary E img self w h predictions e
                   Hopen Hdet Hobj).
        cbn. split; [reflexivity|]. split; [discriminate|reflexivity].
    + rewrite (process_image_detector_error uni_isspace uni_isalnum str_lower
                 get_objects_summary E img self w h e Hopen Hdet).
      destruct (is_DeepstackException e); cbn;
        (split; [reflexivity|]; split; [discriminate|reflexivity]).
  - rewrite (process_image_undecodable uni_isspace uni_isalnum str_lower
               get_objects_summary E img self Hopen).
    cbn. split; [reflexivity|]. split; [discriminate|reflexivity].
Qed.

(** C7. The last detection is assigned only by a call whose count of found
    targets is positive, and then it is the time of that call; any other
    call keeps it. A call on which the detector returns nothing sets the
    state to 0 and the found targets to the empty list and keeps it; and
    it is kept through any series of calls none of which has a positive
    count. *)
Theorem last_detection_lifecycle :
  (forall E img self,
      _last_detection (entity_after (process_image uni_isspace uni_isalnum str_lower get_objects_summary E img self))
      = if positive_count (cycle_found (cfg self) E img)
        then Some (dt_now E)
        else _last_detection self)
  /\ (forall E img self w h,
         pil_open E img = Some (w, h) ->
         ds_detect E img = Ok [] ->
         let self' := entity_after (process_image uni_isspace uni_isalnum str_lower get_objects_summary E img self) in
         _state self' = Some 0%nat
         /\ _targets_found self' = []
         /\ _last_detection self' = _last_detection self)
  /\ (forall cycles self,
         Forall (fun cy => positive_count (cycle_found (cfg self) (fst cy) (snd cy))
                           = false) cycles ->
         _last_detection (run_cycles uni_isspace uni_isalnum str_lower get_objects_summary cycles self) = _last_detection self).
Proof.
  split; [|split].
  - intros E img self. apply (process_image_step E img self).
  - intros E img self w h Hopen Hdet self'.
    assert (Hfound : cycle_found (cfg self) E img = Some 0%nat).
    { unfold cycle_found. rewrite Hopen, Hdet. reflexivity. }
    destruct (process_image_step E img self) as (_ & Hstate & Hlast).
    destruct (Hstate 0%nat Hfound) as [Hs Hlen].
    rewrite Hfound in Hlast. cbn in Hlast.
    subst self'. repeat split; try assumption.
    now apply length_zero_iff_nil.
  - intros cycles. induction cycles as [|[E img] cycles IH]; intros self Hall.
    + reflexivity.
    + inversion Hall as [|cy rest Hhead Htail]; subst.
      cbn [fst snd] in Hhead.
      destruct (process_image_step E img self) as (Hcfg & _ & Hlast).
      rewrite Hhead in Hlast.
      cbn [run_cycles].
      destruct (process_image uni_isspace uni_isalnum str_lower get_objects_summary E img self) as [[r self1] t] eqn:Hrun.
      unfold entity_after in Hcfg, Hlast. cbn in Hcfg, Hlast.
      rewrite <- Hlast. apply IH.
      rewrite Hcfg. exact Htail.
Qed.

End LastDetection.

(** A person is found at 10:30:00; ten seconds later the detector returns
    nothing, then it fails: the state falls to 0 and then to [None], the last
    detection stays at 10:30:00. *)
Lemma last_detection_lifecycle_witness :
  let run := run_cycles latin1_isspace latin1_isalnum ascii_lower label_counts in
  let seen := run [(seeing_at stamp [sure_person_prediction], a_frame)]
                  (init (person_config None)) in
  _state seen = Some 1%nat
  /\ _last_detection seen = Some stamp
  /\ _state (run [(seeing_at later_stamp [], a_frame)] seen) = Some 0%nat
  /\ _last_detection
       (run [(seeing_at later_stamp [], a_frame); (detector_down, a_frame)] seen)
     = _last_detection seen.
Proof.
  cbv zeta.
  split; [reflexivity|]. split; [reflexivity|]. split; [reflexivity|].
  apply (proj2 (proj2 (last_detection_lifecycle latin1_isspace latin1_isalnum
                         ascii_lower label_counts))).
  repeat constructor.
Defined.

(** ** The slug and its caller *)

Lemma save_image_writes_latest (uni_isspace uni_isalnum : N -> bool)
    (str_lower : pystr -> pystr) (E : env) (img : image) (targets : list Obj.t)
    (dir : pystr) (self : entity) (w h : Z) :
  pil_open E img = Some (w, h) ->
  In (ImgSave (mkpath dir
                 (str_lower (get_valid_filename uni_isspace uni_isalnum (_name (cfg self)))
                  ++ codes "_latest.jpg")))
     (trace (save_image uni_isspace uni_isalnum str_lower E img targets dir self)).
Proof.
  intros Hopen.
  open_method save_image; unfold trace, when, emit, emits, get, ret.
  rewrite Hopen. cbn -[tuple4_ne get_valid_filename codes draw_targets].
  destruct (tuple4_ne _ _ && _show_boxes (cfg self));
    destruct (_save_timestamped_file (cfg self));
    cbn -[get_valid_filename codes draw_targets];
    repeat (rewrite in_app_iff || cbn [In]); auto 10.
Qed.

(** C9. [get_valid_filename("My Cam #1")] is ["My_Cam_1"]. The underscore
    is kept and the space is not; every character of the result is a word character, a dot or a dash, and is
    either a character of the input, unchanged (so in its own case), or an
    underscore that stands for a space of the input. The lower-casing is the
    caller's: [save_image] names the latest file by the lower-cased slug. *)
Theorem get_valid_filename_example (uni_isspace uni_isalnum : N -> bool) :
  get_valid_filename uni_isspace uni_isalnum (codes "My Cam #1") = codes "My_Cam_1"
  /\ kept uni_isalnum UNDERSCORE = true
  /\ kept uni_isalnum SPACE = false
  /\ (forall s c,
         In c (get_valid_filename uni_isspace uni_isalnum s) ->
         kept uni_isalnum c = true /\ (In c s \/ (c = UNDERSCORE /\ In SPACE s)))
  /\ (forall str_lower E img targets dir self w h,
         pil_open E img = Some (w, h) ->
         In (ImgSave (mkpath dir
                        (str_lower (get_valid_filename uni_isspace uni_isalnum
                                      (_name (cfg self)))
                         ++ codes "_latest.jpg")))
            (trace (save_image uni_isspace uni_isalnum str_lower E img targets dir self))).
Proof.
  split; [reflexivity|]. split; [reflexivity|]. split; [reflexivity|]. split.
  - intros s c Hc. split.
    + pose proof (slug_kept uni_isspace uni_isalnum s) as Hall.
      rewrite Forall_forall in Hall. apply Hall, Hc.
    + apply (slug_origin uni_isspace uni_isalnum s c Hc).
  - intros. apply save_image_writes_latest with (w := w) (h := h). assumption.
Qed.

(** The camera "My Cam #1" is saved as [my_cam_1_latest.jpg]. *)
Lemma get_valid_filename_example_witness :
  get_valid_filename latin1_isspace latin1_isalnum (codes "My Cam #1") = codes "My_Cam_1"
  /\ In (ImgSave (mkpath (codes "/config/www") (codes "my_cam_1_latest.jpg")))
        (trace (save_image latin1_isspace latin1_isalnum ascii_lower
                  (seeing [dog_prediction]) a_frame [dog_object] (codes "/config/www")
                  (init (person_config (Some (codes "/config/www")))))).
Proof.
  split.
  - exact (proj1 (get_valid_filename_example latin1_isspace latin1_isalnum)).
  - exact (proj2 (proj2 (proj2 (proj2
             (get_valid_filename_example latin1_isspace latin1_isalnum))))
             ascii_lower (seeing [dog_prediction]) a_frame [dog_object]
             (codes "/config/www")
             (init (person_config (Some (codes "/config/www"))))
             100%Z 200%Z eq_refl).
Defined.

(** With the no-break space as whitespace and the accented letters as word
    characters: the text is a no-break space, then Caf, e with an acute
    accent, and " du Nord! "; its slug keeps the accented letter and is a
    fixed point. *)
Lemma get_valid_filename_idempotent_witness :
  let s := [160; 67; 97; 102; 233; 32; 100; 117; 32; 78; 111; 114; 100; 33; 32]%N in
  let slug := get_valid_filename latin1_isspace latin1_isalnum in
  slug s = [67; 97; 102; 233; 95; 100; 117; 95; 78; 111; 114; 100]%N
  /\ slug (slug s) = slug s.
Proof.
  cbv zeta. split; [reflexivity|].
  apply (get_valid_filename_idempotent latin1_isspace latin1_isalnum).
  intros c Hc Hs. unfold latin1_isspace in Hs. apply N.eqb_eq in Hs. subst c.
  reflexivity.
Defined.

(* ================================================================== *)
(** * Further properties *)

(** ** More on the order of floats *)

Module FloatFacts.

Ltac sf_cases :=
  repeat match goal with
         | |- context [Z.compare ?u ?v] => destruct (Z.compare_spec u v)
         | |- context [Pos.compare_cont Eq ?u ?v] =>
             change (Pos.compare_cont Eq u v) with (Pos.compare u v);
             destruct (Pos.compare_spec u v)
         end;
  simpl; intros; try reflexivity; try discriminate; try lia.

Lemma SFleb_trans (a b c : spec_float) :
  SFleb a b = true -> SFleb b c = true -> SFleb a c = true.
Proof.
  unfold SFleb, SFcompare.
  destruct a as [sa|sa| |sa ma ea], b as [sb|sb| |sb mb eb], c as [sc|sc| |sc mc ec];
    try destruct sa; try destruct sb; try destruct sc;
    try reflexivity; try discriminate; sf_cases.
Qed.

Lemma SFleb_ltb_trans (a b c : spec_float) :
  SFleb a b = true -> SFltb b c = true -> SFltb a c = true.
Proof.
  unfold SFleb, SFltb, SFcompare.
  destruct a as [sa|sa| |sa ma ea], b as [sb|sb| |sb mb eb], c as [sc|sc| |sc mc ec];
    try destruct sa; try destruct sb; try destruct sc;
    try reflexivity; try discriminate; sf_cases.
Qed.

Lemma SFeqb_irrefl_nan (a : spec_float) : SFeqb a a = false -> a = S754_nan.
Proof.
  unfold SFeqb, SFcompare.
  destruct a as [s|s| |s m e]; try destruct s; try reflexivity; try discriminate;
    rewrite Z.compare_refl;
    change (Pos.compare_cont Eq m m) with (Pos.compare m m);
    rewrite Pos.compare_refl; discriminate.
Qed.

Lemma leb_trans (a b c : float) :
  (a <=? b)%float = true -> (b <=? c)%float = true -> (a <=? c)%float = true.
Proof. rewrite !leb_spec. apply SFleb_trans. Qed.

Lemma leb_ltb_trans (a b c : float) :
  (a <=? b)%float = true -> (b <? c)%float = true -> (a <? c)%float = true.
Proof. rewrite leb_spec, !ltb_spec. apply SFleb_ltb_trans. Qed.

(** NaN is below nothing and nothing is below NaN. *)
Lemma nan_leb (a b : float) :
  PrimFloat.is_nan a = true ->
  (a <=? b)%float = false /\ (b <=? a)%float = false.
Proof.
  unfold PrimFloat.is_nan. intros Hnan. apply negb_true_iff in Hnan.
  rewrite eqb_spec in Hnan. apply SFeqb_irrefl_nan in Hnan.
  rewrite !leb_spec, Hnan. split; [reflexivity|].
  unfold SFleb, SFcompare. destruct (Prim2SF b); reflexivity.
Qed.

End FloatFacts.

(** ** Geometry, continued *)

Lemma point_in_box_nan_point (B : Box.t) (P : Point.t) :
  PrimFloat.is_nan (Point.x P) = true \/ PrimFloat.is_nan (Point.y P) = true ->
  point_in_box B P = false.
Proof.
  intros [H|H]; unfold point_in_box.
  - destruct (FloatFacts.nan_leb (Point.x P) (Box.x_max B) H) as [-> _].
    now rewrite andb_false_r.
  - destruct (FloatFacts.nan_leb (Point.y P) (Box.y_max B) H) as [-> _].
    now rewrite !andb_false_r.
Qed.

Lemma point_in_box_nan_box (B : Box.t) (P : Point.t) :
  PrimFloat.is_nan (Box.x_min B) = true \/ PrimFloat.is_nan (Box.x_max B) = true
  \/ PrimFloat.is_nan (Box.y_min B) = true \/ PrimFloat.is_nan (Box.y_max B) = true ->
  point_in_box B P = false.
Proof.
  intros [H|[H|[H|H]]]; unfold point_in_box.
  - destruct (FloatFacts.nan_leb (Box.x_min B) (Point.x P) H) as [-> _]. reflexivity.
  - destruct (FloatFacts.nan_leb (Box.x_max B) (Point.x P) H) as [_ ->].
    now rewrite andb_false_r.
  - destruct (FloatFacts.nan_leb (Box.y_min B) (Point.y P) H) as [-> _].
    now rewrite andb_false_r.
  - destruct (FloatFacts.nan_leb (Box.y_max B) (Point.y P) H) as [_ ->].
    now rewrite !andb_false_r.
Qed.

(** X1. NaN is in no box and no box has it as a bound: when a coordinate of
    the point or a bound of the box is NaN, [point_in_box] is false. *)
Theorem point_in_box_nan (B : Box.t) (P : Point.t) :
  PrimFloat.is_nan (Point.x P) = true \/ PrimFloat.is_nan (Point.y P) = true
  \/ PrimFloat.is_nan (Box.x_min B) = true \/ PrimFloat.is_nan (Box.x_max B) = true
  \/ PrimFloat.is_nan (Box.y_min B) = true \/ PrimFloat.is_nan (Box.y_max B) = true ->
  point_in_box B P = false.
Proof.
  intros [H|[H|H]].
  - apply point_in_box_nan_point. now left.
  - apply point_in_box_nan_point. now right.
  - apply point_in_box_nan_box. exact H.
Qed.

Lemma point_in_box_nan_witness :
  point_in_box (Box.mk 0 0 1 1) (Point.mk 0.5 nan) = false
  /\ point_in_box (Box.mk 0 0 1 nan) (Point.mk 0.5 0.5) = false.
Proof.
  split.
  - apply (point_in_box_nan (Box.mk 0 0 1 1) (Point.mk 0.5 nan)).
    left. reflexivity.
  - apply (point_in_box_nan (Box.mk 0 0 1 nan) (Point.mk 0.5 0.5)).
    right. right. right. left. reflexivity.
Defined.

Lemma point_in_box_true (B : Box.t) (P : Point.t) :
  point_in_box B P = true <->
  ((Box.x_min B <=? Point.x P)%float = true /\ (Point.x P <=? Box.x_max B)%float = true)
  /\ ((Box.y_min B <=? Point.y P)%float = true /\ (Point.y P <=? Box.y_max B)%float = true).
Proof.
  unfold point_in_box.
  destruct (Box.x_min B <=? Point.x P)%float, (Point.x P <=? Box.x_max B)%float,
           (Box.y_min B <=? Point.y P)%float, (Point.y P <=? Box.y_max B)%float;
    simpl; intuition congruence.
Qed.

Lemma interval_grows (lo lo' x hi hi' : float) :
  PyFloat.le lo' lo -> PyFloat.le hi hi' ->
  (lo <=? x)%float = true /\ (x <=? hi)%float = true ->
  (lo' <=? x)%float = true /\ (x <=? hi')%float = true.
Proof.
  unfold PyFloat.le. intros Hlo Hhi [Ha Hb]. split.
  - exact (FloatFacts.leb_trans _ _ _ Hlo Ha).
  - exact (FloatFacts.leb_trans _ _ _ Hb Hhi).
Qed.

(** X2. A point of a box lies in every box around it. *)
Theorem point_in_box_monotone (inner outer : Box.t) (P : Point.t) :
  box_inside inner outer ->
  point_in_box inner P = true ->
  point_in_box outer P = true.
Proof.
  intros (Hx0 & Hx1 & Hy0 & Hy1) Hin.
  apply point_in_box_true in Hin. destruct Hin as [Hx Hy].
  apply point_in_box_true. split.
  - exact (interval_grows _ _ _ _ _ Hx0 Hx1 Hx).
  - exact (interval_grows _ _ _ _ _ Hy0 Hy1 Hy).
Qed.

Lemma point_in_box_monotone_witness :
  point_in_box (Box.mk 0 0 1 1) (Point.mk 0.5 0.3) = true.
Proof.
  apply (point_in_box_monotone (Box.mk 0.2 0.2 0.8 0.8) (Box.mk 0 0 1 1)
                               (Point.mk 0.5 0.3)).
  - repeat split.
  - reflexivity.
Defined.

(** ** The matcher under a stricter configuration *)

Lemma filter_refines {A} (p q : A -> bool) (l : list A) :
  (forall x, q x = true -> p x = true) ->
  filter q l = filter q (filter p l).
Proof.
  intros Himp. induction l as [|x l IH]; simpl; [reflexivity|].
  destruct (q x) eqn:Hq.
  - rewrite (Himp x Hq). simpl. rewrite Hq. now f_equal.
  - destruct (p x); simpl; [rewrite Hq|]; exact IH.
Qed.

Lemma object_in_roi_monotone (inner outer : Roi.t) (centroid : Centroid.t) :
  roi_inside inner outer ->
  object_in_roi inner centroid = true ->
  object_in_roi outer centroid = true.
Proof.
  unfold object_in_roi. intros (Hx0 & Hx1 & Hy0 & Hy1) Hin.
  apply point_in_box_true in Hin. destruct Hin as [Hx Hy].
  apply point_in_box_true. cbn [Box.x_min Box.x_max Box.y_min Box.y_max] in *. split.
  - exact (interval_grows _ _ _ _ _ Hx0 Hx1 Hx).
  - exact (interval_grows _ _ _ _ _ Hy0 Hy1 Hy).
Qed.

(** X3. Raising the confidence or shrinking the region only filters the
    found targets further: what the matcher finds under the stricter
    configuration is what it would pick among the targets found under the
    laxer one. *)
Theorem stricter_configuration_finds_less (c : config) (confidence : float)
    (roi : Roi.t) (objects : list Obj.t) :
  PyFloat.le (_confidence c) confidence ->
  roi_inside roi (_roi_dict c) ->
  let strict := with_roi roi (with_confidence confidence c) in
  filter (is_target strict) objects
  = filter (is_target strict) (filter (is_target c) objects).
Proof.
  intros Hconf Hroi strict. apply filter_refines. intros obj.
  unfold strict, is_target. cbn [_targets _confidence _roi_dict with_roi with_confidence].
  rewrite !andb_true_iff. intros [[Hname Hc] Hr]. repeat split.
  - exact Hname.
  - exact (FloatFacts.leb_ltb_trans _ _ _ Hconf Hc).
  - exact (object_in_roi_monotone roi (_roi_dict c) _ Hroi Hr).
Qed.

Lemma stricter_configuration_finds_less_witness :
  let strict := with_roi (Roi.mk 0.1 0.1 0.9 0.25)
                         (with_confidence 85 (person_config None)) in
  filter (is_target strict) [person_object 90; dog_object; person_object 82]
  = filter (is_target strict)
           (filter (is_target (person_config None))
                   [person_object 90; dog_object; person_object 82]).
Proof.
  apply (stricter_configuration_finds_less (person_config None) 85
           (Roi.mk 0.1 0.1 0.9 0.25)
           [person_object 90; dog_object; person_object 82]).
  - reflexivity.
  - repeat split.
Defined.

(** ** The classifier *)

Lemma str_in_In (x : string) (xs : list string) : str_in x xs = true <-> In x xs.
Proof.
  unfold str_in. rewrite existsb_exists. split.
  - intros (y & Hy & Heq). apply String.eqb_eq in Heq. now subst.
  - intros H. exists x. split; [exact H|apply String.eqb_refl].
Qed.

Lemma str_in_false (x : string) (xs : list string) : str_in x xs = false <-> ~ In x xs.
Proof.
  rewrite <- str_in_In. destruct (str_in x xs); split; congruence.
Qed.

Lemma get_object_type_animal (object_name : string) :
  get_object_type object_name = ANIMAL <-> In object_name ANIMALS.
Proof.
  unfold get_object_type.
  destruct (String.eqb_spec object_name PERSON) as [->|_].
  - split; [discriminate|]. unfold PERSON, ANIMALS. simpl. intuition discriminate.
  - destruct (str_in object_name ANIMALS) eqn:Ha.
    + apply str_in_In in Ha. tauto.
    + apply str_in_false in Ha.
      destruct (str_in object_name VEHICLES); split;
        try discriminate; intros; contradiction.
Qed.

(** X4. The classifier's answer is one of the four types, and each type
    says where the name was found: "person" for that name alone, "animal"
    exactly for the names of [ANIMALS], "vehicle" exactly for those of
    [VEHICLES], "other" for every other name. The order of the tests does not
    matter, as no name is in two of the lists. *)
Theorem get_object_type_spec (object_name : string) :
  (get_object_type object_name = PERSON <-> object_name = PERSON)
  /\ (get_object_type object_name = ANIMAL <-> In object_name ANIMALS)
  /\ (get_object_type object_name = VEHICLE <-> In object_name VEHICLES)
  /\ (get_object_type object_name = OTHER <->
      object_name <> PERSON /\ ~ In object_name ANIMALS /\ ~ In object_name VEHICLES)
  /\ In (get_object_type object_name) [PERSON; ANIMAL; VEHICLE; OTHER].
Proof.
  assert (Hdisj : In object_name ANIMALS -> In object_name VEHICLES -> False).
  { unfold ANIMALS, VEHICLES. simpl.
    intros Ha Hv.
    repeat (destruct Ha as [Ha|Ha]; [subst object_name; intuition discriminate|]).
    exact Ha. }
  assert (Hpa : object_name = PERSON -> In object_name ANIMALS -> False).
  { intros ->. unfold PERSON, ANIMALS. simpl. intuition discriminate. }
  assert (Hpv : object_name = PERSON -> In object_name VEHICLES -> False).
  { intros ->. unfold PERSON, VEHICLES. simpl. intuition discriminate. }
  assert (D1 : PERSON <> ANIMAL) by (cbv; discriminate).
  assert (D2 : PERSON <> VEHICLE) by (cbv; discriminate).
  assert (D3 : PERSON <> OTHER) by (cbv; discriminate).
  assert (D4 : ANIMAL <> VEHICLE) by (cbv; discriminate).
  assert (D5 : ANIMAL <> OTHER) by (cbv; discriminate).
  assert (D6 : VEHICLE <> OTHER) by (cbv; discriminate).
  unfold get_object_type.
  destruct (String.eqb_spec object_name PERSON) as [Hp|Hp];
    [|destruct (str_in object_name ANIMALS) eqn:Ha;
      [apply str_in_In in Ha
      |apply str_in_false in Ha;
       destruct (str_in object_name VEHICLES) eqn:Hv;
       [apply str_in_In in Hv|apply str_in_false in Hv]]];
    (split; [|split; [|split; [|split]]]);
    try (simpl; tauto);
    intuition congruence.
Qed.

(** ** The normaliser, continued *)

Lemma get_objects_loop_acc (w h : Z) (preds : list Pred.t) (acc : list Obj.t) :
  get_objects_loop preds w h acc
  = rbind (get_objects_loop preds w h []) (fun objs => Ok (acc ++ objs)).
Proof.
  revert acc. induction preds as [|p preds IH]; intros acc; simpl.
  - now rewrite app_nil_r.
  - destruct (get_object p w h) as [o|e]; simpl; [|reflexivity].
    rewrite (IH (acc ++ [o])), (IH [o]).
    destruct (get_objects_loop preds w h []) as [objs|e]; simpl; [|reflexivity].
    now rewrite <- app_assoc.
Qed.

(** X5. Normalising a list of predictions piece by piece: the records of
    [a ++ b] are those of [a] followed by those of [b], and an error in
    either piece is the error of the whole, the one of [a] first. *)
Theorem get_objects_app (a b : list Pred.t) (w h : Z) :
  get_objects (a ++ b) w h
  = (xs <- get_objects a w h ;;
     ys <- get_objects b w h ;;
     Ok (xs ++ ys))%res.
Proof.
  unfold get_objects. induction a as [|p a IH]; simpl.
  - destruct (get_objects_loop b w h []); reflexivity.
  - destruct (get_object p w h) as [o|e]; simpl; [|reflexivity].
    rewrite (get_objects_loop_acc w h (a ++ b) [o]), IH.
    rewrite (get_objects_loop_acc w h a [o]).
    destruct (get_objects_loop a w h []) as [xs|e]; simpl; [|reflexivity].
    destruct (get_objects_loop b w h []) as [ys|e]; simpl; reflexivity.
Qed.





Lemma get_object_fields (p : Pred.t) (w h : Z) (o : Obj.t) :
  get_object p w h = Ok o ->
  Obj.name o = Pred.label p /\ Obj.object_type o = get_object_type (Pred.label p).
Proof.
  unfold get_object, py_truediv. intros Ho.
  destruct (h =? 0)%Z; [discriminate|].
  destruct (w =? 0)%Z; [discriminate|].
  simpl in Ho. injection Ho as <-. split; reflexivity.
Qed.

(** X7. Every record [get_objects] returns is typed by its own name: its
    object type is the classifier's answer for its name, so it is "animal"
    only under the name of an animal of the table, and a record without a
    name has the type "other". *)
Theorem get_objects_types (predictions : list Pred.t) (w h : Z)
    (objects : list Obj.t) :
  get_objects predictions w h = Ok objects ->
  Forall (fun o =>
            Obj.object_type o = get_object_type (Obj.name o)
            /\ (Obj.object_type o = ANIMAL <-> In (Obj.name o) ANIMALS)
            /\ (Obj.name o = "" -> Obj.object_type o = OTHER))
         objects.
Proof.
  intros Hrun.
  destruct (get_objects_loop_inv w h predictions [] objects Hrun) as (objs & -> & Hall).
  clear Hrun. cbn [app].
  induction Hall as [|p o preds objs Ho _ IH]; [constructor|].
  constructor; [|exact IH].
  destruct (get_object_fields p w h o Ho) as [Hn Ht].
  rewrite Ht, Hn. split; [reflexivity|]. split.
  - apply (get_object_type_animal (Pred.label p)).
  - intros ->. reflexivity.
Qed.

Lemma get_objects_types_witness :
  Forall (fun o =>
            Obj.object_type o = get_object_type (Obj.name o)
            /\ (Obj.object_type o = ANIMAL <-> In (Obj.name o) ANIMALS)
            /\ (Obj.name o = "" -> Obj.object_type o = OTHER))
         [dog_object; nameless_object].
Proof.
  apply (get_objects_types [dog_prediction; nameless_prediction] 100 200).
  vm_compute. reflexivity.
Defined.

(** ** The slug, continued *)

Lemma dropwhile_length (p : N -> bool) (s : pystr) :
  (List.length (dropwhile p s) <= List.length s)%nat.
Proof.
  induction s as [|c s IH]; simpl; [lia|]. destruct (p c); simpl; lia.
Qed.

Lemma dropwhile_skip (p : N -> bool) (ws s : pystr) :
  Forall (fun c => p c = true) ws -> dropwhile p (ws ++ s) = dropwhile p s.
Proof.
  induction 1 as [|c ws Hc _ IH]; simpl; [reflexivity|]. now rewrite Hc.
Qed.

Lemma dropwhile_all (p : N -> bool) (ws : pystr) :
  Forall (fun c => p c = true) ws -> dropwhile p ws = [].
Proof.
  intros H. rewrite <- (app_nil_r ws). now rewrite dropwhile_skip.
Qed.

Lemma ascii_kept (c : N) :
  ((c =? DASH)%N || (ascii_isalnum c || (c =? UNDERSCORE)%N) || (c =? DOT)%N) = true ->
  ascii_isalnum c = true \/ c = UNDERSCORE \/ c = DASH \/ c = DOT.
Proof.
  rewrite !orb_true_iff, !N.eqb_eq. tauto.
Qed.

Section SlugProperties.

Variable uni_isspace : N -> bool.
Variable uni_isalnum : N -> bool.

Lemma strip_length (s : pystr) :
  (List.length (strip uni_isspace s) <= List.length s)%nat.
Proof.
  unfold strip. rewrite length_rev.
  etransitivity; [apply dropwhile_length|].
  rewrite length_rev. apply dropwhile_length.
Qed.

Lemma strip_surrounded (ws s ws' : pystr) :
  Forall (fun c => isspace uni_isspace c = true) ws ->
  Forall (fun c => isspace uni_isspace c = true) ws' ->
  strip uni_isspace (ws ++ s ++ ws') = strip uni_isspace s.
Proof.
  intros Hws Hws'. unfold strip. rewrite (dropwhile_skip _ ws _ Hws).
  f_equal. induction s as [|c s IH]; simpl.
  - now rewrite (dropwhile_all _ ws' Hws').
  - destruct (isspace uni_isspace c); [exact IH|].
    change (c :: s ++ ws') with ((c :: s) ++ ws').
    rewrite rev_app_distr. apply dropwhile_skip, Forall_rev, Hws'.
Qed.

(** X8. The slug is safe as a file name component whatever the Unicode
    tables: among the ASCII characters it holds only letters, digits,
    [_], [-] and [.], so no slash, backslash, colon, space or control
    character, and it is never longer than the name. *)
Theorem get_valid_filename_safe (s : pystr) :
  let slug := get_valid_filename uni_isspace uni_isalnum s in
  Forall (fun c => (c < 128)%N ->
                   ascii_isalnum c = true \/ c = UNDERSCORE \/ c = DASH \/ c = DOT)
         slug
  /\ (forall c, In c (codes "/\:*?<>| ") \/ (c < 32)%N -> ~ In c slug)
  /\ (List.length slug <= List.length s)%nat.
Proof.
  intros slug.
  assert (Hsafe : Forall (fun c => (c < 128)%N ->
            ascii_isalnum c = true \/ c = UNDERSCORE \/ c = DASH \/ c = DOT) slug).
  { eapply Forall_impl; [|apply (slug_kept uni_isspace uni_isalnum s)].
    intros c Hk Hc. unfold kept, isword in Hk.
    destruct (N.ltb_spec c 128) as [_|?]; [|lia].
    apply ascii_kept, Hk. }
  split; [exact Hsafe|]. split.
  - intros c Hc Hin. rewrite Forall_forall in Hsafe.
    assert (Hlt : (c < 128)%N).
    { destruct Hc as [Hc|Hc]; [|lia].
      cbn in Hc. repeat (destruct Hc as [<-|Hc]; [lia|]). contradiction. }
    specialize (Hsafe c Hin Hlt).
    unfold ascii_isalnum, between, UNDERSCORE, DASH, DOT in Hsafe.
    rewrite !orb_true_iff, !andb_true_iff, !N.leb_le in Hsafe.
    destruct Hc as [Hc|Hc]; [|lia].
    cbn in Hc. repeat (destruct Hc as [<-|Hc]; [lia|]). contradiction.
  - unfold slug, get_valid_filename, re_sub_disallowed, replace_space.
    etransitivity; [apply filter_length_le|].
    rewrite length_map. apply strip_length.
Qed.

(** X9. Whitespace around the name does not reach the slug: a name and the
    same name with whitespace before and after it have the same slug. *)
Theorem get_valid_filename_ignores_margins (ws s ws' : pystr) :
  Forall (fun c => isspace uni_isspace c = true) ws ->
  Forall (fun c => isspace uni_isspace c = true) ws' ->
  get_valid_filename uni_isspace uni_isalnum (ws ++ s ++ ws')
  = get_valid_filename uni_isspace uni_isalnum s.
Proof.
  intros Hws Hws'. unfold get_valid_filename.
  now rewrite (strip_surrounded ws s ws' Hws Hws').
Qed.

End SlugProperties.

Lemma get_valid_filename_ignores_margins_witness :
  get_valid_filename latin1_isspace latin1_isalnum
                     ([9; 160; 32] ++ codes "My Cam #1" ++ [32; 10])%N
  = get_valid_filename latin1_isspace latin1_isalnum (codes "My Cam #1").
Proof.
  apply (get_valid_filename_ignores_margins latin1_isspace latin1_isalnum
           [9; 160; 32]%N (codes "My Cam #1") [32; 10]%N);
    repeat constructor.
Defined.

(** ** [save_image] on an image that opens *)

Lemma draw_targets_hidden (w h : Z) (targets : list Obj.t) :
  draw_targets false w h targets = [].
Proof. destruct targets; reflexivity. Qed.

Lemma draw_targets_shown (w h : Z) (targets : list Obj.t) :
  draw_targets true w h targets = flat_map (draw_target w h) targets.
Proof.
  induction targets as [|obj rest IH]; simpl; [reflexivity|]. now rewrite IH.
Qed.

Lemma draw_targets_drawing (show : bool) (w h : Z) (targets : list Obj.t) :
  filter is_drawing (draw_targets show w h targets) = draw_targets show w h targets
  /\ filter is_ImgSave (draw_targets show w h targets) = []
  /\ filter is_BusFire (draw_targets show w h targets) = [].
Proof.
  destruct show; [|rewrite draw_targets_hidden; repeat split].
  induction targets as [|obj rest (IH1 & IH2 & IH3)]; simpl; [repeat split|].
  rewrite IH1, IH2, IH3. repeat split.
Qed.

Section SaveImage.

Variable uni_isspace : N -> bool.
Variable uni_isalnum : N -> bool.
Variable str_lower : pystr -> pystr.

Lemma save_image_decoded (E : env) (img : image) (targets : list Obj.t)
    (dir : pystr) (self : entity) (w h : Z) :
  pil_open E img = Some (w, h) ->
  save_image uni_isspace uni_isalnum str_lower E img targets dir self
  = (Ok (Some (saved_image_path uni_isspace uni_isalnum str_lower
                 (cfg self) (_last_detection self) dir)),
     self,
     save_image_effects uni_isspace uni_isalnum str_lower
       (cfg self) (_last_detection self) w h targets dir).
Proof.
  intros Hopen.
  open_method save_image; unfold when, emit, emits, get, ret.
  rewrite Hopen.
  unfold save_image_effects, saved_image_path, latest_save_path,
    timestamp_save_path, roi_tuple.
  cbn -[tuple4_ne get_valid_filename codes draw_targets app].
  destruct (tuple4_ne _ _ && _show_boxes (cfg self));
    destruct (_save_timestamped_file (cfg self));
    cbn -[get_valid_filename codes draw_targets];
    rewrite ?app_nil_r; reflexivity.
Qed.


Lemma save_image_effects_fires (c : config) (last : option pystr) (w h : Z)
    (targets : list Obj.t) (dir : pystr) :
  filter is_BusFire
    (save_image_effects uni_isspace uni_isalnum str_lower c last w h targets dir)
  = [].
Proof.
  unfold save_image_effects. rewrite !filter_app.
  destruct (draw_targets_drawing (_show_boxes c) w h targets) as (_ & _ & ->).
  destruct (tuple4_ne _ _ && _show_boxes c); destruct (_save_timestamped_file c);
    reflexivity.
Qed.


(** X11. What [save_image] draws: with [show_boxes] off, nothing at all
    (the files are saved undecorated); with it on, first the region in green
    when it is not the whole image, then for every target, in order, its box
    in red with its label and an X at its centroid. *)
Theorem save_image_drawing (E : env) (img : image) (targets : list Obj.t)
    (dir : pystr) (self : entity) (w h : Z) :
  pil_open E img = Some (w, h) ->
  let c := cfg self in
  filter is_drawing
    (trace (save_image uni_isspace uni_isalnum str_lower E img targets dir self))
  = if _show_boxes c
    then (if tuple4_ne (roi_tuple (_roi_dict c)) DEFAULT_ROI
          then [DrawBox (roi_tuple (_roi_dict c)) w h RoiText GREEN]
          else [])
         ++ flat_map (draw_target w h) targets
    else [].
Proof.
  intros Hopen c. subst c.
  rewrite (save_image_decoded E img targets dir self w h Hopen).
  unfold trace. cbn [snd]. unfold save_image_effects. rewrite !filter_app.
  destruct (draw_targets_drawing (_show_boxes (cfg self)) w h targets) as (-> & _ & _).
  destruct (_show_boxes (cfg self)).
  - rewrite draw_targets_shown, andb_true_r.
    destruct (tuple4_ne _ _); destruct (_save_timestamped_file (cfg self));
      cbn [filter is_drawing app]; rewrite ?app_nil_r; reflexivity.
  - rewrite draw_targets_hidden, andb_false_r.
    destruct (_save_timestamped_file (cfg self)); reflexivity.
Qed.

End SaveImage.


Lemma save_image_drawing_witness :
  filter is_drawing
    (trace (save_image latin1_isspace latin1_isalnum ascii_lower
              (seeing [dog_prediction]) a_frame [dog_object; nameless_object]
              (codes "/config/www")
              (init (with_roi (Roi.mk 0 0 1 0.5)
                       (person_config (Some (codes "/config/www")))))))
  = [DrawBox (0, 0, 1, 0.5)%float 100 200 RoiText GREEN]
    ++ draw_target 100 200 dog_object ++ draw_target 100 200 nameless_object.
Proof.
  exact (save_image_drawing latin1_isspace latin1_isalnum ascii_lower
           (seeing [dog_prediction]) a_frame [dog_object; nameless_object]
           (codes "/config/www")
           (init (with_roi (Roi.mk 0 0 1 0.5)
                    (person_config (Some (codes "/config/www")))))
           100%Z 200%Z eq_refl).
Defined.

(** ** [process_image], call by call *)

(** One step of a method at a time. *)
Lemma bind_run {A B} (m : M A) (k : A -> M B) (self self1 : entity) (a : A)
    (t1 : list effect) :
  m self = (Ok a, self1, t1) ->
  bind m k self = let '(r2, self2, t2) := k a self1 in (r2, self2, t1 ++ t2).
Proof. intros Hm. unfold bind. rewrite Hm. reflexivity. Qed.

Lemma bind_quiet {A B} (m : M A) (k : A -> M B) (self self1 : entity) (a : A) :
  m self = (Ok a, self1, []) ->
  bind m k self = k a self1.
Proof.
  intros Hm. rewrite (bind_run m k self self1 a [] Hm).
  destruct (k a self1) as [[r s] t]. reflexivity.
Qed.

Lemma cfg_reset_cycle (w h : Z) (self : entity) : cfg (reset_cycle w h self) = cfg self.
Proof. reflexivity. Qed.

Lemma cfg_counted_cycle (now : pystr) (s : summary) (objects : list Obj.t)
    (self : entity) :
  cfg (counted_cycle now s objects self) = cfg self.
Proof.
  unfold counted_cycle.
  destruct (0 <? List.length (filter (is_target (cfg self)) objects))%nat; reflexivity.
Qed.

Lemma targets_found_counted_cycle (now : pystr) (s : summary) (objects : list Obj.t)
    (self : entity) :
  _targets_found (counted_cycle now s objects self)
  = filter (is_target (cfg self)) objects.
Proof.
  unfold counted_cycle.
  destruct (0 <? List.length (filter (is_target (cfg self)) objects))%nat; reflexivity.
Qed.

Lemma last_detection_counted_cycle (now : pystr) (s : summary) (objects : list Obj.t)
    (self : entity) :
  _last_detection (counted_cycle now s objects self)
  = if (0 <? List.length (filter (is_target (cfg self)) objects))%nat
    then Some now
    else _last_detection self.
Proof.
  unfold counted_cycle.
  destruct (0 <? List.length (filter (is_target (cfg self)) objects))%nat; reflexivity.
Qed.

Section Cycle.

Variable uni_isspace : N -> bool.
Variable uni_isalnum : N -> bool.
Variable str_lower : pystr -> pystr.
Variable get_objects_summary : list Pred.t -> summary.

(** The second half of [process_image]: saving and firing, from the state
    the counting leaves. *)
Lemma save_and_fire (E : env) (img : image) (self : entity) (w h : Z)
    (folder : option pystr) (positive : bool) (targets : list Obj.t) :
  pil_open E img = Some (w, h) ->
  let saving :=
    match folder with
    | Some dir => if positive then Some dir else None
    | None => None
    end in
  bind match folder with
       | Some dir =>
           if positive
           then save_image uni_isspace uni_isalnum str_lower E img targets dir
           else ret None
       | None => ret None
       end
       fire_events self
  = (Ok tt, self,
     match saving with
     | Some dir =>
         save_image_effects uni_isspace uni_isalnum str_lower (cfg self)
                            (_last_detection self) w h targets dir
     | None => []
     end
     ++ map (fun target =>
               BusFire EVENT_OBJECT_DETECTED
                 (mkevent target (entity_id (cfg self))
                    (option_map
                       (saved_image_path uni_isspace uni_isalnum str_lower (cfg self)
                                         (_last_detection self))
                       saving)))
            (_targets_found self)).
Proof.
  intros Hopen saving. subst saving.
  destruct folder as [dir|]; [destruct positive|].
  - rewrite (bind_run _ fire_events self self _ _
               (save_image_decoded uni_isspace uni_isalnum str_lower E img
                  targets dir self w h Hopen)).
    reflexivity.
  - reflexivity.
  - reflexivity.
Qed.

Ltac step_modify :=
  match goal with
  | |- bind (modify ?f) ?k ?s = _ =>
      rewrite (bind_quiet (modify f) k s (f s) tt eq_refl); cbv beta
  end.

Lemma process_image_counted_result (E : env) (img : image) (self : entity)
    (w h : Z) (predictions : list Pred.t) (objects : list Obj.t) :
  pil_open E img = Some (w, h) ->
  ds_detect E img = Ok predictions ->
  get_objects predictions w h = Ok objects ->
  let c := cfg self in
  let found := filter (is_target c) objects in
  let saving :=
    match _save_file_folder c with
    | Some dir => if (0 <? List.length found)%nat then Some dir else None
    | None => None
    end in
  process_image uni_isspace uni_isalnum str_lower get_objects_summary E img self
  = (Ok tt,
     counted_cycle (dt_now E) (get_objects_summary predictions) objects
                   (reset_cycle w h self),
     match saving with
     | Some dir =>
         save_image_effects uni_isspace uni_isalnum str_lower c
                            (Some (dt_now E)) w h found dir
     | None => []
     end
     ++ map (fun target =>
               BusFire EVENT_OBJECT_DETECTED
                 (mkevent target (entity_id c)
                    (option_map
                       (saved_image_path uni_isspace uni_isalnum str_lower c
                                         (Some (dt_now E)))
                       saving)))
            found).
Proof.
  intros Hopen Hdet Hobj c found saving.
  assert (H1 : lift (Image_open E img) self = (Ok (w, h), self, [])).
  { unfold lift, Image_open. now rewrite Hopen. }
  unfold process_image.
  rewrite (bind_quiet _ _ self self (w, h) H1). cbv beta iota.
  do 5 step_modify. fold (reset_cycle w h self).
  set (s0 := reset_cycle w h self).
  assert (H2 : try_except
                 (bind (lift (ds_detect E img)) (fun predictions => ret (Some predictions)))
                 "ds" is_DeepstackException
                 (fun exc => bind (emit (LogError exc)) (fun _ => ret None)) s0
               = (Ok (Some predictions), s0, [])).
  { unfold try_except, bind, lift. rewrite Hdet. reflexivity. }
  rewrite (bind_quiet _ _ s0 s0 (Some predictions) H2). cbv beta iota.
  step_modify.
  assert (H3 : forall s, lift (get_objects predictions w h) s = (Ok objects, s, [])).
  { intros s. unfold lift. now rewrite Hobj. }
  rewrite (bind_quiet _ _ _ _ objects (H3 _)). cbv beta.
  step_modify.
  match goal with
  | |- bind get ?k ?s = _ => rewrite (bind_quiet get k s s s eq_refl); cbv beta zeta
  end.
  change (cfg (set_objects objects (set_summary (get_objects_summary predictions) s0)))
    with c.
  change (_objects (set_objects objects
                      (set_summary (get_objects_summary predictions) s0)))
    with objects.
  fold found.
  do 2 step_modify.
  unfold counted_cycle. change (cfg s0) with c. fold found. cbv zeta.
  subst saving.
  destruct (0 <? List.length found)%nat; unfold when.
  - step_modify.
    rewrite (save_and_fire E img _ w h (_save_file_folder c) true found Hopen).
    reflexivity.
  - rewrite (bind_quiet (ret tt) _ _ _ tt eq_refl).
    rewrite (save_and_fire E img _ w h (_save_file_folder c) false found Hopen).
    destruct (_save_file_folder c); reflexivity.
Qed.


(** The four ways a call can go. *)
Lemma process_image_cases (E : env) (img : image) (self : entity) :
  let r := process_image uni_isspace uni_isalnum str_lower get_objects_summary
             E img self in
  (pil_open E img = None /\ r = (Raise UnidentifiedImageError, self, []))
  \/ (exists w h e,
         pil_open E img = Some (w, h) /\ ds_detect E img = Raise e
         /\ r = if is_DeepstackException e
                then (Ok tt, reset_cycle w h self, [LogError e])
                else (Raise e, reset_cycle w h self, []))
  \/ (exists w h predictions e,
         pil_open E img = Some (w, h) /\ ds_detect E img = Ok predictions
         /\ get_objects predictions w h = Raise e
         /\ r = (Raise e,
                 set_summary (get_objects_summary predictions) (reset_cycle w h self),
                 []))
  \/ (exists w h predictions objects,
         pil_open E img = Some (w, h) /\ ds_detect E img = Ok predictions
         /\ get_objects predictions w h = Ok objects).
Proof.
  intros r. subst r.
  destruct (pil_open E img) as [[w h]|] eqn:Hopen.
  - destruct (ds_detect E img) as [predictions|e] eqn:Hdet.
    + destruct (get_objects predictions w h) as [objects|e] eqn:Hobj.
      * right. right. right. exists w, h, predictions, objects. auto.
      * right. right. left. exists w, h, predictions, e.
        repeat split; try assumption.
        apply process_image_normaliser_error; assumption.
    + right. left. exists w, h, e. repeat split; try assumption.
      apply process_image_detector_error; assumption.
  - left. split; [reflexivity|]. apply process_image_undecodable. exact Hopen.
Qed.

End Cycle.

(** ** What a call of [process_image] does to the outside *)

Section CallProperties.

Variable uni_isspace : N -> bool.
Variable uni_isalnum : N -> bool.
Variable str_lower : pystr -> pystr.
Variable get_objects_summary : list Pred.t -> summary.


(** X13. A call that returns fires one event per found target, in the
    order of the found targets and after everything else it does; every
    event carries the target, the entity id and the same saved path, which is
    missing exactly when no folder is configured or nothing was found. The
    number of events is the state. *)
Theorem events_follow_targets (E : env) (img : image) (self : entity) :
  let r := process_image uni_isspace uni_isalnum str_lower get_objects_summary
             E img self in
  outcome r = Ok tt ->
  exists saved others,
    let events :=
      map (fun target =>
             BusFire EVENT_OBJECT_DETECTED
                     (mkevent target (entity_id (cfg self)) saved))
          (_targets_found (entity_after r)) in
    trace r = others ++ events
    /\ filter is_BusFire others = []
    /\ (saved = None <->
        _save_file_folder (cfg self) = None \/ _targets_found (entity_after r) = [])
    /\ match _state (entity_after r) with
       | Some n => List.length events = n
       | None => events = []
       end.
Proof.
  intros r Hok.
  destruct (process_image_cases uni_isspace uni_isalnum str_lower
              get_objects_summary E img self)
    as [(Hopen & Hr)|[(w & h & e' & Hopen & Hdet & Hr)
       |[(w & h & predictions & e' & Hopen & Hdet & Hobj & Hr)
        |(w & h & predictions & objects & Hopen & Hdet & Hobj)]]];
    fold r in Hr || idtac.
  - rewrite Hr in Hok. discriminate Hok.
  - rewrite Hr in *. destruct (is_DeepstackException e'); [|discriminate Hok].
    exists None, [LogError e']. cbn. repeat split; auto.
  - rewrite Hr in Hok. discriminate Hok.
  - subst r.
    rewrite (process_image_counted_result uni_isspace uni_isalnum str_lower
               get_objects_summary E img self w h predictions objects
               Hopen Hdet Hobj).
    unfold trace, entity_after. cbn [fst snd].
    rewrite targets_found_counted_cycle, cfg_reset_cycle.
    set (found := filter (is_target (cfg self)) objects).
    assert (Hstate : _state (counted_cycle (dt_now E) (get_objects_summary predictions)
                               objects (reset_cycle w h self))
                     = Some (List.length found)).
    { unfold counted_cycle. rewrite cfg_reset_cycle. fold found.
      destruct (0 <? List.length found)%nat; reflexivity. }
    rewrite Hstate.
    destruct (_save_file_folder (cfg self)) as [dir|].
    + destruct found as [|t found'] eqn:Hfound.
      * exists None, []. cbn. repeat split; auto.
      * cbn [List.length Nat.ltb Nat.leb].
        eexists. eexists. split; [reflexivity|].
        split; [apply save_image_effects_fires|]. split.
        -- cbn. split; [discriminate|]. intros [H|H]; discriminate.
        -- now rewrite length_map.
    + exists None, []. cbn [app option_map]. repeat split; auto.
      now rewrite length_map.
Qed.


End CallProperties.

(** ** The attributes across calls *)

Lemma consistent_init (c : config) : consistent (init c).
Proof. split; reflexivity. Qed.

Lemma consistent_counted (now : pystr) (s : summary) (objects : list Obj.t)
    (self : entity) :
  consistent (counted_cycle now s objects self).
Proof.
  unfold consistent, counted_cycle.
  destruct (0 <? List.length (filter (is_target (cfg self)) objects))%nat;
    split; reflexivity.
Qed.

Section Invariant.

Variable uni_isspace : N -> bool.
Variable uni_isalnum : N -> bool.
Variable str_lower : pystr -> pystr.
Variable get_objects_summary : list Pred.t -> summary.

Lemma process_image_keeps (E : env) (img : image) (self : entity) :
  consistent self ->
  let self' := entity_after
                 (process_image uni_isspace uni_isalnum str_lower
                                get_objects_summary E img self) in
  consistent self' /\ cfg self' = cfg self.
Proof.
  intros Hinv self'. subst self'.
  destruct (process_image_cases uni_isspace uni_isalnum str_lower
              get_objects_summary E img self)
    as [(Hopen & Hr)|[(w & h & e' & Hopen & Hdet & Hr)
       |[(w & h & predictions & e' & Hopen & Hdet & Hobj & Hr)
        |(w & h & predictions & objects & Hopen & Hdet & Hobj)]]].
  - rewrite Hr. split; [exact Hinv|reflexivity].
  - rewrite Hr. destruct (is_DeepstackException e'); repeat split.
  - rewrite Hr. repeat split.
  - rewrite (process_image_counted_result uni_isspace uni_isalnum str_lower
               get_objects_summary E img self w h predictions objects
               Hopen Hdet Hobj).
    unfold entity_after. cbn [fst snd]. split.
    + apply consistent_counted.
    + now rewrite cfg_counted_cycle, cfg_reset_cycle.
Qed.

Lemma run_cycles_keeps (cycles : list (env * image)) :
  forall self,
    consistent self ->
    consistent (run_cycles uni_isspace uni_isalnum str_lower get_objects_summary
                           cycles self)
    /\ cfg (run_cycles uni_isspace uni_isalnum str_lower get_objects_summary
                       cycles self)
       = cfg self.
Proof.
  induction cycles as [|[E img] cycles IH]; intros self Hinv.
  - split; [exact Hinv|reflexivity].
  - cbn [run_cycles].
    destruct (process_image_keeps E img self Hinv) as [Hinv1 Hcfg1].
    destruct (process_image uni_isspace uni_isalnum str_lower get_objects_summary
                            E img self) as [[r self1] t].
    unfold entity_after in Hinv1, Hcfg1. cbn [fst snd] in Hinv1, Hcfg1.
    destruct (IH self1 Hinv1) as [Hinv2 Hcfg2].
    split; [exact Hinv2|]. now rewrite Hcfg2.
Qed.

(** X15. Whatever calls an entity has gone through since it was set up,
    however they ended, its attributes agree: the found targets are the
    objects the matcher accepts, in the order of the objects; the state is
    their number, or [None] with no objects and no found targets; and the
    configuration is the one it was set up with. *)
Theorem entity_stays_consistent (c : config) (cycles : list (env * image)) :
  let self := run_cycles uni_isspace uni_isalnum str_lower get_objects_summary
                         cycles (init c) in
  cfg self = c
  /\ _targets_found self = filter (is_target c) (_objects self)
  /\ match _state self with
     | Some n => n = List.length (_targets_found self)
     | None => _objects self = [] /\ _targets_found self = []
     end.
Proof.
  intros self.
  destruct (run_cycles_keeps cycles (init c) (consistent_init c)) as [[Hf Hs] Hcfg].
  fold self in Hf, Hs, Hcfg. cbn [cfg init] in Hcfg.
  split; [exact Hcfg|]. rewrite Hcfg in Hf. split; [exact Hf|].
  destruct (_state self); [exact Hs|].
  split; [exact Hs|]. rewrite Hf, Hs. reflexivity.
Qed.

End Invariant.

(** ** [device_state_attributes] *)

Lemma count_attribute (self : entity) (key : attr_key) (n : nat) :
  In (key, VCount n) (device_state_attributes self) ->
  exists target,
    In target (_targets (cfg self))
    /\ ((key = KRoiCount target /\ n = count_named target (_targets_found self))
        \/ (key = KAllCount target /\ n = count_named target (_objects self))).
Proof.
  unfold device_state_attributes. cbv zeta.
  rewrite !in_app_iff, in_flat_map.
  intros [H|[H|[H|[H|[H|[H|H]]]]]].
  - destruct H as [H|[]]. discriminate.
  - destruct H as (target & Hin & [H|[H|[]]]); injection H as <- <-;
      exists target; auto.
  - destruct (_last_detection self) as [[|ch rest]|]; try contradiction.
    destruct H as [H|[]]. discriminate.
  - destruct (truthy (_custom_model (cfg self))); [|contradiction].
    destruct H as [H|[]]. discriminate.
  - destruct H as [H|[]]. discriminate.
  - destruct (_save_file_folder (cfg self)); [|contradiction].
    destruct H as [H|[]]. discriminate.
  - destruct (_save_timestamped_file (cfg self)); [|contradiction].
    destruct H as [H|[]]. discriminate.
Qed.

Lemma count_named_entry (name : string) (floor : float) (objs : list Obj.t) :
  count_named (TargetEntry name floor) objs = 0%nat.
Proof.
  unfold count_named. induction objs as [|o objs IH]; simpl; [reflexivity|exact IH].
Qed.

(** X16. With targets that are entries of the configuration (a target and
    its confidence, as [setup_platform] passes them), every count
    [device_state_attributes] reports is 0, whatever was detected: a name
    never equals an entry. The attributes do hold two counts per target. *)
Theorem entry_counts_are_zero (self : entity) :
  Forall (fun t => is_entry t = true) (_targets (cfg self)) ->
  (forall key n, In (key, VCount n) (device_state_attributes self) -> n = 0%nat)
  /\ (forall target, In target (_targets (cfg self)) ->
        In (KRoiCount target, VCount 0) (device_state_attributes self)
        /\ In (KAllCount target, VCount 0) (device_state_attributes self)).
Proof.
  intros Hentries. rewrite Forall_forall in Hentries. split.
  - intros key n Hin.
    destruct (count_attribute self key n Hin) as (target & Ht & Hcase).
    specialize (Hentries target Ht).
    destruct target as [name floor|name]; [|discriminate Hentries].
    destruct Hcase as [[_ ->]|[_ ->]]; apply count_named_entry.
  - intros target Ht. pose proof (Hentries target Ht) as He.
    destruct target as [name floor|name]; [|discriminate He].
    unfold device_state_attributes. cbv zeta.
    split; apply in_or_app; right; apply in_or_app; left;
      apply in_flat_map; exists (TargetEntry name floor);
      (split; [exact Ht|]); rewrite !count_named_entry; simpl; auto.
Qed.

Lemma count_named_filter (target : pytarget) (p : Obj.t -> bool) (objs : list Obj.t) :
  (count_named target (filter p objs) <= count_named target objs)%nat.
Proof.
  unfold count_named. induction objs as [|o objs IH]; simpl; [lia|].
  destruct (p o); simpl; destruct (str_eq_target (Obj.name o) target); simpl; lia.
Qed.

Section Counts.

Variable uni_isspace : N -> bool.
Variable uni_isalnum : N -> bool.
Variable str_lower : pystr -> pystr.
Variable get_objects_summary : list Pred.t -> summary.

(** X17. After any series of calls, the count of a target inside the
    region that [device_state_attributes] reports never exceeds the count of
    that target over all objects. *)
Theorem roi_count_below_all_count (c : config) (cycles : list (env * image))
    (target : pytarget) (n m : nat) :
  let attr := device_state_attributes
                (run_cycles uni_isspace uni_isalnum str_lower get_objects_summary
                            cycles (init c)) in
  In (KRoiCount target, VCount n) attr ->
  In (KAllCount target, VCount m) attr ->
  (n <= m)%nat.
Proof.
  intros attr Hroi Hall. subst attr.
  destruct (run_cycles_keeps uni_isspace uni_isalnum str_lower get_objects_summary
              cycles (init c) (consistent_init c)) as [[Hf _] _].
  destruct (count_attribute _ _ _ Hroi) as (t1 & _ & [[Hk ->]|[Hk _]]);
    [|discriminate Hk].
  injection Hk as <-.
  destruct (count_attribute _ _ _ Hall) as (t2 & _ & [[Hk _]|[Hk ->]]);
    [discriminate Hk|].
  injection Hk as <-.
  rewrite Hf. apply count_named_filter.
Qed.

End Counts.

Section History.

Variable uni_isspace : N -> bool.
Variable uni_isalnum : N -> bool.
Variable str_lower : pystr -> pystr.
Variable get_objects_summary : list Pred.t -> summary.

Lemma run_cycles_last_detection (c : config) (cycles : list (env * image)) :
  forall self,
    cfg self = c ->
    _last_detection (run_cycles uni_isspace uni_isalnum str_lower
                                get_objects_summary cycles self)
    = last_positive c cycles (_last_detection self).
Proof.
  unfold last_positive.
  induction cycles as [|[E img] cycles IH]; intros self Hcfg; [reflexivity|].
  cbn [run_cycles fold_left fst snd].
  destruct (process_image_step uni_isspace uni_isalnum str_lower get_objects_summary
              E img self) as (Hcfg1 & _ & Hlast).
  destruct (process_image uni_isspace uni_isalnum str_lower get_objects_summary
                          E img self) as [[r self1] t].
  unfold entity_after in Hcfg1, Hlast. cbn [fst snd] in Hcfg1, Hlast.
  rewrite (IH self1) by congruence.
  rewrite Hlast, Hcfg. reflexivity.
Qed.

(** X18. The last detection an entity holds is the time of the last call
    that found a target, among all the calls since it was set up, and it is
    [None] as long as no call has; [device_state_attributes] reports it
    under "last_target_detection" exactly when it is there (and not the
    empty text). *)
Theorem last_detection_is_last_positive (c : config) (cycles : list (env * image)) :
  let self := run_cycles uni_isspace uni_isalnum str_lower get_objects_summary
                         cycles (init c) in
  _last_detection self = last_positive c cycles None
  /\ (forall v, In (KLastTargetDetection, v) (device_state_attributes self) <->
                exists s, v = VStamp s /\ s <> [] /\ last_positive c cycles None = Some s).
Proof.
  intros self.
  assert (Hlast : _last_detection self = last_positive c cycles None).
  { apply (run_cycles_last_detection c cycles (init c)). reflexivity. }
  split; [exact Hlast|].
  intros v. rewrite <- Hlast. unfold device_state_attributes. cbv zeta.
  rewrite !in_app_iff, in_flat_map. split.
  - intros [H|[H|[H|[H|[H|[H|H]]]]]].
    + destruct H as [H|[]]. discriminate.
    + destruct H as (target & _ & [H|[H|[]]]); discriminate.
    + destruct (_last_detection self) as [[|ch rest]|]; try contradiction.
      destruct H as [H|[]]. injection H as <-.
      exists (ch :: rest). repeat split. discriminate.
    + destruct (truthy (_custom_model (cfg self))); [|contradiction].
      destruct H as [H|[]]. discriminate.
    + destruct H as [H|[]]. discriminate.
    + destruct (_save_file_folder (cfg self)); [|contradiction].
      destruct H as [H|[]]. discriminate.
    + destruct (_save_timestamped_file (cfg self)); [|contradiction].
      destruct H as [H|[]]. discriminate.
  - intros (s & -> & Hne & ->). right. right. left.
    destruct s as [|ch rest]; [contradiction|]. left. reflexivity.
Qed.

End History.


(** ** Witnesses *)


(** Two persons and a dog in front of a camera that saves: three events. *)
Lemma events_follow_targets_witness :
  let self := init (person_config (Some (codes "/config/www"))) in
  let r := process_image latin1_isspace latin1_isalnum ascii_lower label_counts
             (seeing [sure_person_prediction; dog_prediction; sure_person_prediction])
             a_frame self in
  outcome r = Ok tt
  /\ List.length (filter is_BusFire (trace r)) = 3%nat
  /\ exists saved others,
       trace r
       = others
         ++ map (fun target =>
                   BusFire EVENT_OBJECT_DETECTED
                           (mkevent target (entity_id (cfg self)) saved))
                (_targets_found (entity_after r))
       /\ filter is_BusFire others = [].
Proof.
  cbv zeta.
  assert (Hok : outcome (process_image latin1_isspace latin1_isalnum ascii_lower
                           label_counts
                           (seeing [sure_person_prediction; dog_prediction;
                                    sure_person_prediction])
                           a_frame (init (person_config (Some (codes "/config/www")))))
                = Ok tt) by (vm_compute; reflexivity).
  split; [exact Hok|]. split; [vm_compute; reflexivity|].
  destruct (events_follow_targets latin1_isspace latin1_isalnum ascii_lower
              label_counts
              (seeing [sure_person_prediction; dog_prediction; sure_person_prediction])
              a_frame (init (person_config (Some (codes "/config/www")))) Hok)
    as (saved & others & Htrace & Hothers & _).
  exists saved, others. split; assumption.
Defined.

(** The default configuration after a person was found: both counts of the
    target are reported, and they are 0. *)
Lemma entry_counts_are_zero_witness :
  let self := run_cycles latin1_isspace latin1_isalnum ascii_lower label_counts
                [(seeing [sure_person_prediction], a_frame)]
                (init (person_config None)) in
  _state self = Some 1%nat
  /\ In (KRoiCount (TargetEntry "person" 80), VCount 0) (device_state_attributes self)
  /\ In (KAllCount (TargetEntry "person" 80), VCount 0) (device_state_attributes self).
Proof.
  cbv zeta. split; [vm_compute; reflexivity|].
  assert (Hcfg : _targets (cfg (run_cycles latin1_isspace latin1_isalnum ascii_lower
                                  label_counts
                                  [(seeing [sure_person_prediction], a_frame)]
                                  (init (person_config None))))
                 = [TargetEntry "person" 80]) by (vm_compute; reflexivity).
  apply (proj2 (entry_counts_are_zero
                  (run_cycles latin1_isspace latin1_isalnum ascii_lower label_counts
                     [(seeing [sure_person_prediction], a_frame)]
                     (init (person_config None)))
                  ltac:(rewrite Hcfg; repeat constructor))
           (TargetEntry "person" 80)).
  rewrite Hcfg. left. reflexivity.
Defined.

(** Told to count the name "person", the camera sees two persons and finds
    the one above the threshold: 1 inside the region, 2 in all. *)
Lemma roi_count_below_all_count_witness :
  let attr := device_state_attributes
                (run_cycles latin1_isspace latin1_isalnum ascii_lower label_counts
                   [(seeing [sure_person_prediction; person_prediction], a_frame)]
                   (init named_config)) in
  In (KRoiCount (TargetName "person"), VCount 1) attr
  /\ In (KAllCount (TargetName "person"), VCount 2) attr
  /\ (1 <= 2)%nat.
Proof.
  cbv zeta.
  assert (Hattr : exists rest,
             device_state_attributes
               (run_cycles latin1_isspace latin1_isalnum ascii_lower label_counts
                  [(seeing [sure_person_prediction; person_prediction], a_frame)]
                  (init named_config))
             = (KTargets, VTargets [TargetName "person"])
               :: (KRoiCount (TargetName "person"), VCount 1)
               :: (KAllCount (TargetName "person"), VCount 2) :: rest).
  { eexists. vm_compute. reflexivity. }
  destruct Hattr as [rest Hattr].
  assert (H1 : In (KRoiCount (TargetName "person"), VCount 1)
                  (device_state_attributes
                     (run_cycles latin1_isspace latin1_isalnum ascii_lower label_counts
                        [(seeing [sure_person_prediction; person_prediction], a_frame)]
                        (init named_config)))).
  { rewrite Hattr. right. left. reflexivity. }
  assert (H2 : In (KAllCount (TargetName "person"), VCount 2)
                  (device_state_attributes
                     (run_cycles latin1_isspace latin1_isalnum ascii_lower label_counts
                        [(seeing [sure_person_prediction; person_prediction], a_frame)]
                        (init named_config)))).
  { rewrite Hattr. right. right. left. reflexivity. }
  split; [exact H1|]. split; [exact H2|].
  exact (roi_count_below_all_count latin1_isspace latin1_isalnum ascii_lower
           label_counts named_config
           [(seeing [sure_person_prediction; person_prediction], a_frame)]
           (TargetName "person") 1 2 H1 H2).
Defined.
